(** * MathML_EPS.py: MathML blocks of an XML document rendered to numbered EPS files

    A shallow embedding of [src/MathML_EPS.py] and the properties of its
    extractor, preference loader, popup dismissal, per-equation loop and
    entry point.

    Conventions of the embedding.
    - A Python [str] is a [string]; a character is an 8-bit code point
      (Latin-1 range), which covers every character the program inspects.
    - A Python [int] is a [Z]; its f-string rendering is stdpp's decimal
      [pretty].
    - A [dict] with string keys is a [gmap string string].
    - The program drives MathType through pywinauto.  The answers of that
      channel (which windows exist at each poll, whether a call raises) are
      inputs of the model: each fallible call reads its outcome from a record.
    - Exceptions are values of an error monad; the global [eqn_counter] and the
      observable effects (log lines, files written) are threaded as a state. *)

From Stdlib Require Import ZArith Ascii String List Bool Lia.
From stdpp Require Import base option list gmap strings pretty.

Open Scope string_scope.
Open Scope Z_scope.

(** ** Python string primitives *)

Module Py.

Definition dquote : ascii := "034"%char.
Definition tab : ascii := "009"%char.
Definition newline : ascii := "010"%char.

(** [str.isspace] on one character, for code points below 256. *)
Definition isspace (c : ascii) : bool :=
  let n := nat_of_ascii c in
  (((9 <=? n) && (n <=? 13)) || ((28 <=? n) && (n <=? 32))
   || (n =? 133) || (n =? 160))%nat.

Fixpoint lstrip (s : string) : string :=
  match s with
  | String c s' => if isspace c then lstrip s' else s
  | EmptyString => EmptyString
  end.

Fixpoint rstrip (s : string) : string :=
  match s with
  | String c s' =>
      match rstrip s' with
      | EmptyString => if isspace c then EmptyString else String c EmptyString
      | r => String c r
      end
  | EmptyString => EmptyString
  end.

(** [s.strip()] *)
Definition strip (s : string) : string := rstrip (lstrip s).

(** [s.split(sep)] for a one-character separator. *)
Fixpoint split (sep : ascii) (s : string) : list string :=
  match s with
  | String c s' =>
      if Ascii.eqb c sep then EmptyString :: split sep s'
      else match split sep s' with
           | h :: t => String c h :: t
           | [] => [String c EmptyString]
           end
  | EmptyString => [EmptyString]
  end.

(** [s.replace(c, '')] for a one-character [c]. *)
Fixpoint remove_char (x : ascii) (s : string) : string :=
  match s with
  | String c s' =>
      if Ascii.eqb c x then remove_char x s' else String c (remove_char x s')
  | EmptyString => EmptyString
  end.

(** [c.lower()] for code points below 256: A-Z, and the Latin-1 capitals
    (all of 192..222 but the multiplication sign 215). *)
Definition lower_char (c : ascii) : ascii :=
  let n := nat_of_ascii c in
  if (((65 <=? n) && (n <=? 90))
      || ((192 <=? n) && (n <=? 222) && negb (n =? 215)))%nat
  then ascii_of_nat (n + 32) else c.

Fixpoint lower (s : string) : string :=
  match s with
  | String c s' => String (lower_char c) (lower s')
  | EmptyString => EmptyString
  end.

(** [sub in s] *)
Fixpoint contains (sub s : string) : bool :=
  String.prefix sub s
  || match s with
     | String _ s' => contains sub s'
     | EmptyString => false
     end.

(** Iterating a text file: the lines, each with its line end. *)
Fixpoint readlines (s : string) : list string :=
  match s with
  | String c s' =>
      if Ascii.eqb c newline then String c EmptyString :: readlines s'
      else match readlines s' with
           | h :: t => String c h :: t
           | [] => [String c EmptyString]
           end
  | EmptyString => []
  end.

(** [s.count(x)], for a character. *)
Fixpoint count (x : ascii) (s : string) : nat :=
  match s with
  | String c s' => (if Ascii.eqb c x then 1 else 0) + count x s'
  | EmptyString => 0
  end.

(** Truth value of a string: [if s:] *)
Definition truthy (s : string) : bool :=
  match s with EmptyString => false | _ => true end.

(** [x not in s], for a character. *)
Fixpoint free_of (x : ascii) (s : string) : Prop :=
  match s with
  | String c s' => c <> x /\ free_of x s'
  | EmptyString => True
  end.

End Py.

(** ** Errors *)

(** The outcome of a call that may raise. *)
Inductive outcome (A : Type) : Type :=
| Ok (a : A)
| Raise (e : string).
Arguments Ok {A} a.
Arguments Raise {A} e.

(** ** The file system, as far as the program touches it *)

(** [files] holds what can be opened for reading, [dirs] the directories;
    reading looks at [files] alone, writing also asks [dirs] for the folder
    of the path. *)

Inductive file : Type :=
| Readable (text : string)   (* what [f.read()] returns, line ends as [\n] *)
| Unreadable.                (* exists, but [open] or decoding raises *)

Record filesystem : Type := mkFs {
  files : gmap string file;
  dirs : gset string
}.

(** [os.path.exists(p)] *)
Definition path_exists (fs : filesystem) (p : string) : bool :=
  bool_decide (is_Some (files fs !! p)) || bool_decide (p ∈ dirs fs).

(** [open(p, 'r', encoding='utf-8')] followed by reading the text; a path
    with no entry in [files] (nothing there, or a directory) cannot be
    opened. *)
Definition read_text (fs : filesystem) (p : string) : outcome string :=
  match files fs !! p with
  | Some (Readable t) => Ok t
  | Some Unreadable => Raise "cannot open or decode the file"
  | None => Raise "no such file"
  end.

(** A path separator of Windows. *)
Definition is_sep (c : ascii) : bool :=
  Ascii.eqb c "\"%char || Ascii.eqb c "/"%char.

Fixpoint has_sep (p : string) : bool :=
  match p with
  | String c p' => is_sep c || has_sep p'
  | EmptyString => false
  end.

(** The folder a path lies in: what stands before its last separator (the
    empty string, which names the current directory, when it has none). *)
Fixpoint folder_of (p : string) : string :=
  match p with
  | String c p' => if has_sep p' then String c (folder_of p') else EmptyString
  | EmptyString => EmptyString
  end.

(** [open(p, 'w', encoding='utf-8')], writing [t], closing: raises when [p]
    names a directory or when the folder of [p] is not there; otherwise the
    file is made, or replaced.  Access rights are not part of the disk. *)
Definition write_text (fs : filesystem) (p t : string)
  : outcome filesystem :=
  if bool_decide (p ∈ dirs fs) then Raise "the path names a directory"
  else if bool_decide (folder_of p ∈ dirs fs)
       then Ok (mkFs (<[p := Readable t]> (files fs)) (dirs fs))
       else Raise "no such folder".

(** [os.makedirs(p, exist_ok=True)]: raises when [p] names a file; [dirs]
    records [p] itself, not the parents made on the way. *)
Definition makedirs (fs : filesystem) (p : string) : outcome filesystem :=
  match files fs !! p with
  | Some _ => Raise "FileExistsError"
  | None => Ok (mkFs (files fs) ({[p]} ∪ dirs fs))
  end.

(** ** Extractor: [extract_mathml_blocks] *)

Module Extractor.

(** The pattern of line 31,
    [<math[^>]*altimg=Q([^Q]+)Q[^>]*>(.*?)</math>] with [re.DOTALL] (Q stands
    for the double quote character),
    as a backtracking matcher in continuation-passing style: every piece of
    the pattern takes the matcher of what follows it, tries its own
    alternatives in the order of the [re] engine (greedy: longest first, lazy:
    shortest first) and returns the first overall success. *)

(** The two groups and the text after the match. *)
Definition hit : Type := string * string * string.

(** A literal: the text after it, when [s] starts with it. *)
Fixpoint lit (p s : string) : option string :=
  match p with
  | EmptyString => Some s
  | String a p' =>
      match s with
      | String b s' => if Ascii.eqb a b then lit p' s' else None
      | EmptyString => None
      end
  end.

(** [[^x]*], greedy. *)
Fixpoint star_not (x : ascii) (k : string -> option hit) (s : string)
  : option hit :=
  match s with
  | String c s' =>
      if Ascii.eqb c x then k s
      else match star_not x k s' with
           | Some r => Some r
           | None => k s
           end
  | EmptyString => k s
  end.

(** A group around [[^x]*], greedy; [acc] is the group so far. *)
Fixpoint star_not_group (x : ascii) (k : string -> string -> option hit)
  (acc s : string) : option hit :=
  match s with
  | String c s' =>
      if Ascii.eqb c x then k acc s
      else match star_not_group x k (acc ++ String c EmptyString) s' with
           | Some r => Some r
           | None => k acc s
           end
  | EmptyString => k acc s
  end.

(** A group around [[^x]+]. *)
Definition plus_not_group (x : ascii) (k : string -> string -> option hit)
  (s : string) : option hit :=
  match s with
  | String c s' =>
      if Ascii.eqb c x then None
      else star_not_group x k (String c EmptyString) s'
  | EmptyString => None
  end.

(** A group around [.*?] with DOTALL: lazy, any character. *)
Fixpoint lazy_any_group (k : string -> string -> option hit)
  (acc s : string) : option hit :=
  match k acc s with
  | Some r => Some r
  | None =>
      match s with
      | String c s' => lazy_any_group k (acc ++ String c EmptyString) s'
      | EmptyString => None
      end
  end.

Definition gt : ascii := ">"%char.
Definition quote_s : string := String Py.dquote EmptyString.
Definition altimg_eq : string := "altimg=" ++ quote_s.

(** The whole pattern, anchored at the start of [s]. *)
Definition match_at (s : string) : option hit :=
  s1 ← lit "<math" s;
  star_not gt (λ s2,
    s3 ← lit altimg_eq s2;
    plus_not_group Py.dquote (λ alt s4,
      s5 ← lit quote_s s4;
      star_not gt (λ s6,
        s7 ← lit ">" s6;
        lazy_any_group (λ content s8,
          rest ← lit "</math>" s8;
          Some (alt, content, rest)) EmptyString s7) s5) s3) s1.

(** [re.findall]: scan left to right; after a match the scan resumes where
    the match ended, otherwise one character further.  [skip] counts the
    characters of the last match that are still to be stepped over. *)
Fixpoint findall_from (s : string) (skip : nat) : list (string * string) :=
  match s with
  | String c s' =>
      match skip with
      | S n => findall_from s' n
      | O =>
          match match_at s with
          | Some (alt, content, rest) =>
              (alt, content)
                :: findall_from s' (String.length s' - String.length rest)
          | None => findall_from s' 0
          end
      end
  | EmptyString => []
  end.

Definition findall (s : string) : list (string * string) := findall_from s 0.

(** Line 32: the f-string that rebuilds a block from the two groups. *)
Definition rebuild (alt content : string) : string :=
  "<math " ++ altimg_eq ++ alt ++ quote_s ++ ">" ++ content ++ "</math>".

(** The text a match covers: the opening tag with whatever stands before and
    after the [altimg] attribute, the body and the closing tag. *)
Definition span (attrs1 alt attrs2 body : string) : string :=
  "<math" ++ attrs1 ++ altimg_eq ++ alt ++ quote_s ++ attrs2 ++ ">"
    ++ body ++ "</math>".

(** Lines 31-33 on the text of the document. *)
Definition blocks_of_text (xml_content : string) : list (string * string) :=
  (λ m, (rebuild m.1 m.2, m.1)) <$> findall xml_content.

(** [extract_mathml_blocks(xml_path)]: raises when the file cannot be read. *)
Definition extract_mathml_blocks (fs : filesystem) (xml_path : string)
  : outcome (list (string * string)) :=
  match read_text fs xml_path with
  | Ok xml_content => Ok (blocks_of_text xml_content)
  | Raise e => Raise e
  end.

End Extractor.


(** ** PreferenceMap loader: the body of the loop of [read_eps_preferences] *)

Module Preferences.

(** Lines 50-54: one line of the report. *)
Definition parse_line (mapping : gmap string string) (line : string)
  : gmap string string :=
  match Py.split Py.tab (Py.strip line) with
  | eps_name :: pref_name :: _ =>
      <[Py.strip eps_name := Py.strip pref_name]> mapping
  | _ => mapping
  end.

(** Lines 49-54: the loop over the lines, from the mapping built so far. *)
Definition parse_lines (mapping : gmap string string) (lines : list string)
  : gmap string string :=
  foldl parse_line mapping lines.

End Preferences.

(** ** State, events and the exception monad *)

(** What the program reports or does, in order: one constructor per logging
    or [print] call of the source (the pictographs that open some messages
    are not part of the model), named after what the message says. *)
Inductive event : Type :=
| EPrinted (msg : string)                     (* lines 253, 257, 261, 266 *)
| EFound (n : nat)                            (* line 269 *)
| EBlocksSaved (filepath : string)            (* line 39 *)
| EReportMissing (report_file : string)       (* line 45 *)
| EConnected                                  (* line 60 *)
| EStarted                                    (* line 63 *)
| EProcessing (i : nat)                       (* line 208 *)
| ENoPreference (eps_filename : string)       (* line 220 *)
| EPrefNoWindow                               (* line 86 *)
| EPrefApplied (preference_name : string)     (* line 95 *)
| EPrefDialogOk                               (* line 103 *)
| EPrefFailed (preference_name e : string)    (* line 108 *)
| ESavedEps (eps_path : string)               (* line 139 *)
| EClosed                                     (* line 149 *)
| ECloseFailed                                (* line 151 *)
| EError (i : nat) (e : string)               (* line 226 *)
| EPopupDetected (title : string)             (* line 165 *)
| EPrintFailed (e : string)                   (* line 171 *)
| EEscSent (title : string)                   (* line 177 *)
| EEscFailed (title e : string)               (* line 181 *)
| ENoPopup                                    (* line 184 *)
| EPopupError (e : string)                    (* line 187 *)
| EDismissed (dismissed : bool)               (* lines 231, 233 *)
| EPlaceholder (failed_eps_path : string)     (* line 240 *)
| EDone.                                      (* line 245 *)

Record world : Type := mkWorld {
  eqn_counter : Z;           (* the global of line 24 *)
  fs : filesystem;
  trace : list event         (* oldest first *)
}.

(** A computation that reads and writes the state and either returns or
    raises; what it did to the state before raising stays done. *)
Definition M (A : Type) : Type := world -> outcome A * world.

Definition ret {A} (a : A) : M A := λ w, (Ok a, w).

Definition raise {A} (e : string) : M A := λ w, (Raise e, w).

Definition bind {A B} (m : M A) (f : A -> M B) : M B :=
  λ w, match m w with
       | (Ok a, w') => f a w'
       | (Raise e, w') => (Raise e, w')
       end.

(** [try: m except Exception as e: h e] *)
Definition try_except {A} (m : M A) (h : string -> M A) : M A :=
  λ w, match m w with
       | (Ok a, w') => (Ok a, w')
       | (Raise e, w') => h e w'
       end.

(** A call into the control channel, with the outcome the channel gives. *)
Definition call {A} (o : outcome A) : M A := λ w, (o, w).

Definition emit (e : event) : M unit :=
  λ w, (Ok tt, mkWorld (eqn_counter w) (fs w) (trace w ++ [e])).

Definition get_counter : M Z := λ w, (Ok (eqn_counter w), w).

Definition set_counter (n : Z) : M unit :=
  λ w, (Ok tt, mkWorld n (fs w) (trace w)).

Definition get_fs : M filesystem := λ w, (Ok (fs w), w).

Definition set_fs (f : filesystem) : M unit :=
  λ w, (Ok tt, mkWorld (eqn_counter w) f (trace w)).

Declare Scope m_scope.
Delimit Scope m_scope with M.
Notation "x <- m ;; k" := (bind m (λ x, k))
  (at level 100, m at next level, right associativity) : m_scope.
Notation "m ;; k" := (bind m (λ _, k))
  (at level 100, right associativity) : m_scope.
Open Scope m_scope.

(** ** The control channel *)

(** A top-level window of the application, as the program sees it. *)
Record window : Type := mkWindow {
  window_text : string;
  class_name : string;
  print_ids : outcome unit;   (* [w.print_control_identifiers()] *)
  set_focus : outcome unit;   (* [w.set_focus()] *)
  send_esc : outcome unit     (* [send_keys] of the escape key, once focused *)
}.

(** What the channel answers while one line of the unit file is processed. *)
Record channel : Type := mkChannel {
  clip_copy : outcome unit;                   (* line 211 *)
  paste_clear : outcome unit;                 (* line 78 *)
  paste_v : outcome unit;                     (* line 80 *)
  pref_polls : list (outcome (list window));  (* [app.windows()], line 84 *)
  pref_focus : outcome unit;                  (* line 89 *)
  pref_select_all : outcome unit;             (* line 90 *)
  pref_menu : outcome unit;                   (* line 94 *)
  pref_dlg_exists : outcome bool;             (* lines 100-101 *)
  pref_dlg_ok : outcome unit;                 (* line 102 *)
  save_polls : list (outcome (list window));  (* [app.windows()], line 113 *)
  save_menu : outcome unit;                   (* line 117 *)
  save_dlg_wait : outcome unit;               (* lines 120-121 *)
  save_set_text : outcome unit;               (* line 127 *)
  save_click : outcome unit;                  (* line 129 *)
  confirm_exists : outcome bool;              (* lines 133-134 *)
  confirm_yes : outcome unit;                 (* line 135 *)
  close_polls : list (outcome (list window)); (* [app.windows()], line 144 *)
  close_focus : outcome unit;                 (* line 146 *)
  close_keys : outcome unit;                  (* line 147 *)
  popup_windows : outcome (list window)       (* line 159 *)
}.

(** What the channel answers before the loop starts. *)
Record startup : Type := mkStartup {
  import_pyperclip : outcome unit;            (* line 195, as at line 251 *)
  app_connect : outcome unit;                 (* line 59 *)
  app_start : outcome unit;                   (* line 62 *)
  start_polls : list (outcome (list window)); (* [app.windows()], line 198 *)
  start_focus : outcome unit                  (* line 199 *)
}.

(** ** Renderer controller *)

(** Line 72: the title and class signature of the main window. *)
Definition is_main_window (w : window) : bool :=
  Py.contains "MathType" (window_text w)
  && String.eqb (class_name w) "EQNWINCLASS".

(** [get_main_window(app, timeout)]: [polls] holds what [app.windows()]
    answers at each turn of the loop of line 70, for as many turns as the clock
    allows before [timeout]; the list ends when the time is up. *)
Fixpoint get_main_window (polls : list (outcome (list window)))
  : outcome (option window) :=
  match polls with
  | Ok ws :: later =>
      match List.find is_main_window ws with
      | Some w => Ok (Some w)
      | None => get_main_window later
      end
  | Raise e :: _ => Raise e
  | [] => Ok None
  end.

(** [connect_or_start_mathtype()] *)
Definition connect_or_start_mathtype (st : startup) : M unit :=
  try_except (call (app_connect st);; emit EConnected)
    (λ _, call (app_start st);; emit EStarted).

(** [paste_mathml_to_mathtype(mathml)] *)
Definition paste_mathml_to_mathtype (ch : channel) (mathml : string) : M unit :=
  call (paste_clear ch);; call (paste_v ch).

(** [apply_preferences(app, preference_name)] *)
Definition apply_preferences (ch : channel) (preference_name : string)
  : M unit :=
  main_win <- call (get_main_window (pref_polls ch));;
  match main_win with
  | None => emit EPrefNoWindow
  | Some _ =>
      call (pref_focus ch);;
      call (pref_select_all ch);;
      try_except
        (call (pref_menu ch);;
         emit (EPrefApplied preference_name);;
         try_except
           (present <- call (pref_dlg_exists ch);;
            if present : bool
            then call (pref_dlg_ok ch);; emit EPrefDialogOk
            else ret tt)
           (λ _, ret tt))
        (λ e, emit (EPrefFailed preference_name e))
  end.

(** [f"Eqn{n}.eps"] and [f"Eqn{n}_failed.eps"] *)
Definition eps_name_of (n : Z) : string := "Eqn" ++ pretty n ++ ".eps".
Definition failed_name_of (n : Z) : string := "Eqn" ++ pretty n ++ "_failed.eps".

Section Orchestrator.

(** Line 15.  [os.path.join] puts one separator between a directory that ends
    in [eps_output] and a plain file name. *)
Variable OUTPUT_DIR : string.

Definition in_output_dir (name : string) : string :=
  OUTPUT_DIR ++ "\" ++ name.

(** [save_as_eps(app)] *)
Definition save_as_eps (ch : channel) : M string :=
  main_win <- call (get_main_window (save_polls ch));;
  match main_win with
  | None => raise "MathType main window not found during EPS save."
  | Some _ =>
      call (save_menu ch);;
      call (save_dlg_wait ch);;
      n <- get_counter;;
      let eps_name := eps_name_of n in
      let eps_path := in_output_dir eps_name in
      set_counter (n + 1);;
      call (save_set_text ch);;
      call (save_click ch);;
      try_except
        (present <- call (confirm_exists ch);;
         if present : bool then call (confirm_yes ch) else ret tt)
        (λ _, ret tt);;
      emit (ESavedEps eps_path);;
      ret eps_name
  end.

(** [close_current_window(app)] *)
Definition close_current_window (ch : channel) : M unit :=
  try_except
    (main_win <- call (get_main_window (close_polls ch));;
     match main_win with
     | Some _ => call (close_focus ch);; call (close_keys ch);; emit EClosed
     | None => ret tt
     end)
    (λ _, emit ECloseFailed).

(** ** Failure recovery: [dismiss_error_popup] *)

Definition popup_keywords : list string :=
  ["error"; "math"; "warning"; "confirm"; "save"; "server"].

(** Line 164 *)
Definition looks_like_popup (title : string) : bool :=
  existsb (λ keyword, Py.contains keyword (Py.lower title)) popup_keywords.

(** Lines 160-185: the loop over the windows and what follows it. *)
Fixpoint dismiss_loop (all_windows : list window) : M bool :=
  match all_windows with
  | w :: later =>
      let title := window_text w in
      if looks_like_popup title then
        emit (EPopupDetected title);;
        try_except (call (print_ids w)) (λ e, emit (EPrintFailed e));;
        sent <- try_except
                  (call (set_focus w);;
                   call (send_esc w);;
                   emit (EEscSent title);;
                   ret true)
                  (λ e_key, emit (EEscFailed title e_key);; ret false);;
        if sent : bool then ret true else dismiss_loop later
      else dismiss_loop later
  | [] => emit ENoPopup;; ret false
  end.

(** [dismiss_error_popup(app)] *)
Definition dismiss_error_popup (ch : channel) : M bool :=
  try_except
    (all_windows <- call (popup_windows ch);; dismiss_loop all_windows)
    (λ e, emit (EPopupError e);; ret false).

(** ** Orchestrator: [process_mathml_blocks_from_file] *)

(** Lines 211-223: the body of the [try]. *)
Definition unit_body (ch : channel) (eps_pref_map : gmap string string)
  (block : string) : M unit :=
  call (clip_copy ch);;
  paste_mathml_to_mathtype ch block;;
  n <- get_counter;;
  let eps_filename := eps_name_of n in
  match eps_pref_map !! eps_filename with
  | Some preference =>
      if Py.truthy preference then apply_preferences ch preference
      else emit (ENoPreference eps_filename)
  | None => emit (ENoPreference eps_filename)
  end;;
  save_as_eps ch;;
  close_current_window ch.

(** Lines 226-241: the [except] branch. *)
Definition unit_failed (ch : channel) (i : nat) (e : string) : M unit :=
  emit (EError i e);;
  dismissed <- dismiss_error_popup ch;;
  emit (EDismissed dismissed);;
  n <- get_counter;;
  let failed_eps_path := in_output_dir (failed_name_of n) in
  f <- get_fs;;
  written <- call (write_text f failed_eps_path "");;
  set_fs written;;
  emit (EPlaceholder failed_eps_path);;
  set_counter (n + 1).

(** Lines 204-243: one turn of the loop, for line number [i]. *)
Definition process_line (ch : channel) (eps_pref_map : gmap string string)
  (i : nat) (line : string) : M unit :=
  let block := Py.strip line in
  if Py.truthy block then
    emit (EProcessing i);;
    try_except (unit_body ch eps_pref_map block) (unit_failed ch i)
  else ret tt.

(** Lines 203-243: the loop; [ui i] is the channel while line [i] is turned. *)
Fixpoint process_lines (ui : nat -> channel) (eps_pref_map : gmap string string)
  (i : nat) (lines : list string) : M unit :=
  match lines with
  | line :: later =>
      process_line (ui i) eps_pref_map i line;;
      process_lines ui eps_pref_map (S i) later
  | [] => ret tt
  end.

(** [process_mathml_blocks_from_file(txt_path, eps_pref_map)]; the unit
    file is taken whole, a file that can be read giving the same lines when
    it is read line by line. *)
Definition process_mathml_blocks_from_file (st : startup) (ui : nat -> channel)
  (txt_path : string) (eps_pref_map : gmap string string) : M unit :=
  call (import_pyperclip st);;
  connect_or_start_mathtype st;;
  main_win <- call (get_main_window (start_polls st));;
  match main_win with
  | Some _ => call (start_focus st)
  | None => raise "'NoneType' object has no attribute 'set_focus'"
  end;;
  f <- get_fs;;
  text <- call (read_text f txt_path);;
  process_lines ui eps_pref_map 1 (Py.readlines text);;
  emit EDone.

End Orchestrator.

(** ** The loader and the writer of the unit file, on the state *)

(** [read_eps_preferences(report_file)] *)
Definition read_eps_preferences (report_file : string)
  : M (gmap string string) :=
  f <- get_fs;;
  if negb (path_exists f report_file) then
    emit (EReportMissing report_file);; ret ∅
  else
    text <- call (read_text f report_file);;
    ret (Preferences.parse_lines ∅ (Py.readlines text)).

(** Line 38: what is written for one block. *)
Definition unit_line (block : string) : string :=
  Py.remove_char Py.newline (Py.strip block) ++ String Py.newline EmptyString.

(** [write_mathml_to_file(blocks, filepath)] *)
Definition write_mathml_to_file (blocks : list (string * string))
  (filepath : string) : M unit :=
  f <- get_fs;;
  written <- call (write_text f filepath
                     (foldr (λ b text, unit_line b.1 ++ text) EmptyString
                        blocks));;
  set_fs written;;
  emit (EBlocksSaved filepath).

(** ** Entry point *)

(** How the process ends. *)
Inductive ending : Type :=
| Finished                  (* the script ran to its last line *)
| Exited (status : Z)       (* [sys.exit(status)] *)
| Uncaught (e : string).    (* an exception reached the top level *)

(** The exit status the operating system sees. *)
Definition exit_status (t : ending) : Z :=
  match t with
  | Finished => 0
  | Exited status => status
  | Uncaught _ => 1
  end.

Definition MATHTYPE_PATH : string :=
  "C:\Program Files (x86)\MathType\MathType.exe".

(** What the script finds around itself: the path typed by the user and the
    paths [os.path] derives from it and from the home directory (lines 14-21),
    whether [pyperclip] can be imported, and the control channel. *)
Record environment : Type := mkEnv {
  XML_FILE : string;
  OUTPUT_DIR : string;
  REPORT_FILE : string;
  MATHML_TXT_PATH : string;
  pyperclip_installed : bool;
  at_startup : startup;
  ui : nat -> channel
}.

Definition state_at_import (disk : filesystem) : world := mkWorld 1 disk [].

(** Lines 264-273, once the three checks on the surroundings have passed. *)
Definition convert (env : environment) : M ending :=
  f <- get_fs;;
  mathml_blocks <- call (Extractor.extract_mathml_blocks f (XML_FILE env));;
  match mathml_blocks with
  | [] =>
      emit (EPrinted "No <math> blocks with altimg found in the XML.");;
      ret (Exited 1)
  | _ =>
      emit (EFound (length mathml_blocks));;
      write_mathml_to_file mathml_blocks (MATHML_TXT_PATH env);;
      eps_pref_map <- read_eps_preferences (REPORT_FILE env);;
      process_mathml_blocks_from_file (OUTPUT_DIR env) (at_startup env)
        (ui env) (MATHML_TXT_PATH env) eps_pref_map;;
      ret Finished
  end.

(** Lines 249-273: the block under [if __name__ == "__main__"]. *)
Definition entry_point (env : environment) : M ending :=
  if negb (pyperclip_installed env) then
    emit (EPrinted "Please install pyperclip first:
   pip install pyperclip");;
    ret (Exited 1)
  else
    f <- get_fs;;
    if negb (path_exists f (XML_FILE env)) then
      emit (EPrinted ("XML file does not exist: " ++ XML_FILE env));;
      ret (Exited 1)
    else if negb (path_exists f MATHTYPE_PATH) then
      emit (EPrinted ("MathType not found at path: " ++ MATHTYPE_PATH));;
      ret (Exited 1)
    else convert env.

(** The whole script on a disk: lines 14-24 run at import, the output
    directory is made (line 16) and the counter set (line 24) before the entry
    point is reached. *)
Definition script (env : environment) (disk : filesystem) : ending * world :=
  match makedirs disk (OUTPUT_DIR env) with
  | Raise e => (Uncaught e, state_at_import disk)
  | Ok disk' =>
      match entry_point env (state_at_import disk') with
      | (Ok t, w) => (t, w)
      | (Raise e, w) => (Uncaught e, w)
      end
  end.

(** The disk once line 16 has made the output directory. *)
Definition after_line_16 (env : environment) (disk : filesystem) : filesystem :=
  mkFs (files disk) ({[OUTPUT_DIR env]} ∪ dirs disk).



(** ** What a run produced *)

(** The artifact a line of the trace stands for: the file MathType was told
    to save (real) or the empty file the program wrote (placeholder). *)
Definition artifact_of (e : event) : option string :=
  match e with
  | ESavedEps eps_path => Some eps_path
  | EPlaceholder failed_eps_path => Some failed_eps_path
  | _ => None
  end.

Definition artifacts (t : list event) : list string := omap artifact_of t.

(** The lines of the unit file that are turned into a unit (line 205). *)
Definition is_unit (line : string) : bool := Py.truthy (Py.strip line).

Definition units_of (lines : list string) : nat :=
  length (filter (λ line, is_unit line = true) lines).

(** Events that are neither an artifact, nor the report of a popup dismissal,
    nor the start of a unit. *)
Definition quiet (e : event) : bool :=
  match e with
  | ESavedEps _ | EPlaceholder _ | EDismissed _ | EProcessing _ => false
  | _ => true
  end.

(** How often the popup dismissal was called and reported back (lines 229-233). *)
Definition is_dismissal (e : event) : bool :=
  match e with EDismissed _ => true | _ => false end.

Definition dismissals (t : list event) : nat :=
  length (filter (λ e, is_dismissal e = true) t).

(** How often the body of the loop was entered for a unit (line 208). *)
Definition is_start (e : event) : bool :=
  match e with EProcessing _ => true | _ => false end.

Definition starts (t : list event) : nat :=
  length (filter (λ e, is_start e = true) t).

(** The two names a unit with index [n] may get, in the output directory. *)
Definition real_artifact (out : string) (n : Z) : string :=
  in_output_dir out (eps_name_of n).
Definition placeholder_artifact (out : string) (n : Z) : string :=
  in_output_dir out (failed_name_of n).

(** ** What the popup dismissal is to do *)

(** Focus and escape both go through for this window (lines 175-176). *)
Definition can_dismiss (w : window) : bool :=
  match set_focus w, send_esc w with
  | Ok _, Ok _ => true
  | _, _ => false
  end.

(** The window is taken for a popup and can be dismissed. *)
Definition dismissable (w : window) : bool :=
  looks_like_popup (window_text w) && can_dismiss w.

(** The titles of the windows on which a dismissal is to be attempted: each
    window taken for a popup, in the order of enumeration, up to and with the
    first one whose dismissal succeeds. *)
Fixpoint attempted_windows (all_windows : list window) : list string :=
  match all_windows with
  | w :: later =>
      if looks_like_popup (window_text w) then
        window_text w
          :: (if can_dismiss w then [] else attempted_windows later)
      else attempted_windows later
  | [] => []
  end.

(** The dismissal attempts a trace reports (lines 177 and 181). *)
Definition attempt_of (e : event) : option string :=
  match e with
  | EEscSent title => Some title
  | EEscFailed title _ => Some title
  | _ => None
  end.

Definition attempts (t : list event) : list string := omap attempt_of t.

(** ** Behaviours of the channel *)

(** The call returned. *)
Definition ok {A} (o : outcome A) : Prop := ∃ a, o = Ok a.

(** The call raised. *)
Definition raises {A} (o : outcome A) : Prop := ∃ e, o = Raise e.

(** The main window showed up before the timeout. *)
Definition found (polls : list (outcome (list window))) : Prop :=
  ∃ w, get_main_window polls = Ok (Some w).

(** The timeout passed without the main window. *)
Definition not_found (polls : list (outcome (list window))) : Prop :=
  get_main_window polls = Ok None.


(** The save dialog shows, takes the path and the click; the window closes. *)
Definition saves_and_closes (ch : channel) : Prop :=
  ok (save_dlg_wait ch) ∧ ok (save_set_text ch) ∧ ok (save_click ch)
  ∧ ok (confirm_exists ch) ∧ ok (confirm_yes ch)
  ∧ found (close_polls ch) ∧ ok (close_focus ch) ∧ ok (close_keys ch).



(** The save dialog showed (line 121 returned) and line 127 or 129 raised. *)
Definition fails_after_count (ch : channel) : Prop :=
  found (save_polls ch) ∧ ok (save_menu ch) ∧ ok (save_dlg_wait ch)
  ∧ (raises (save_set_text ch) ∨ raises (save_click ch)).


(** The disk with the file [p] made, or replaced, holding [t]. *)
Definition with_file (disk : filesystem) (p t : string) : filesystem :=
  mkFs (<[p := Readable t]> (files disk)) (dirs disk).

(** The file [p] can be written: its folder is there and [p] itself names no
    directory. *)
Definition writable (disk : filesystem) (p : string) : Prop :=
  (p ∉ dirs disk) ∧ folder_of p ∈ dirs disk.

(** The output directory is there and none of the placeholder names is the
    name of a directory: every placeholder can be written. *)
Definition placeholders_writable (out : string) (disk : filesystem) : Prop :=
  out ∈ dirs disk ∧ ∀ n, placeholder_artifact out n ∉ dirs disk.

(** ** Frames for the proofs *)

(** [m] adds only quiet events and leaves the disk and the counter alone. *)
Definition keeps {A} (m : M A) : Prop :=
  ∀ w, ∃ t,
    trace (m w).2 = (trace w ++ t)%list ∧ Forall (λ e, quiet e = true) t
    ∧ fs (m w).2 = fs w ∧ eqn_counter (m w).2 = eqn_counter w.

(** [m] returns, whatever the state. *)
Definition never_raises {A} (m : M A) : Prop :=
  ∀ w, ∃ a, (m w).1 = Ok a.


(** How the body of the [try] may end, from [w]: returned, with one real
    artifact named after the counter at [w] and the counter one further; or
    raised, with no artifact and the counter as it was, or one further when
    the save had already counted. *)
Definition unit_outcome (out : string) (ch : channel) (w : world)
  (r : outcome unit) (w' : world) : Prop :=
  fs w' = fs w
  ∧ match r with
    | Ok _ =>
        ∃ t1 t2,
          trace w'
          = (trace w ++ t1
               ++ ESavedEps (real_artifact out (eqn_counter w)) :: t2)%list
          ∧ Forall (λ e, quiet e = true) t1 ∧ Forall (λ e, quiet e = true) t2
          ∧ eqn_counter w' = eqn_counter w + 1
    | Raise _ =>
        ∃ t,
          trace w' = (trace w ++ t)%list ∧ Forall (λ e, quiet e = true) t
          ∧ (eqn_counter w' = eqn_counter w
             ∨ (eqn_counter w' = eqn_counter w + 1 ∧ fails_after_count ch))
    end.

Definition ends_as_unit (out : string) (ch : channel) (m : M unit) : Prop :=
  ∀ w, unit_outcome out ch w (m w).1 (m w).2.

(** ** Sample inputs *)

Module Sample.

Definition dq : string := Extractor.quote_s.

(** One equation whose opening tag carries three attributes. *)
Definition xml_one : string :=
  "<p><math display=" ++ dq ++ "block" ++ dq ++ " altimg=" ++ dq ++ "e1.png"
    ++ dq ++ " id=" ++ dq ++ "m1" ++ dq ++ "><mi>x</mi></math></p>".

Definition block_one : string :=
  "<math altimg=" ++ dq ++ "e1.png" ++ dq ++ "><mi>x</mi></math>".

Definition disk_one : filesystem :=
  mkFs {[ "doc.xml" := Readable xml_one ]} ∅.

(** The same document on a disk that holds other things too. *)
Definition disk_one_later : filesystem :=
  mkFs {[ "doc.xml" := Readable xml_one; "notes.txt" := Readable "seen" ]}
       {[ "eps_output" ]}.

Definition nl : string := String Py.newline EmptyString.

(** The lines the program writes to the unit file for one and three units. *)
Definition line_one : string := block_one ++ nl.
Definition line_two : string :=
  "<math altimg=" ++ dq ++ "e2.png" ++ dq ++ "><mi>y</mi></math>" ++ nl.
Definition line_three : string :=
  "<math altimg=" ++ dq ++ "e3.png" ++ dq ++ "><mi>z</mi></math>" ++ nl.

Definition main_window : window :=
  mkWindow "MathType - Untitled 1" "EQNWINCLASS" (Ok tt) (Ok tt) (Ok tt).

Definition error_popup : window :=
  mkWindow "MathType Error" "#32770" (Ok tt) (Ok tt) (Ok tt).

(** Every call returns and the main window is there at the first poll. *)
Definition happy : channel :=
  mkChannel (Ok tt) (Ok tt) (Ok tt)
    [Ok [main_window]] (Ok tt) (Ok tt) (Ok tt) (Ok false) (Ok tt)
    [Ok [main_window]] (Ok tt) (Ok tt) (Ok tt) (Ok tt) (Ok false) (Ok tt)
    [Ok [main_window]] (Ok tt) (Ok tt)
    (Ok [main_window]).

(** The save dialog does not show within its ten seconds (line 121). *)
Definition save_timeout : channel :=
  mkChannel (Ok tt) (Ok tt) (Ok tt)
    [Ok [main_window]] (Ok tt) (Ok tt) (Ok tt) (Ok false) (Ok tt)
    [Ok [main_window]] (Ok tt) (Raise "timed out") (Ok tt) (Ok tt) (Ok false)
    (Ok tt)
    [Ok [main_window]] (Ok tt) (Ok tt)
    (Ok [error_popup; main_window]).

(** The save dialog shows but has no edit field to take the path (line 127). *)
Definition edit_fails : channel :=
  mkChannel (Ok tt) (Ok tt) (Ok tt)
    [Ok [main_window]] (Ok tt) (Ok tt) (Ok tt) (Ok false) (Ok tt)
    [Ok [main_window]] (Ok tt) (Ok tt) (Raise "no Edit control") (Ok tt)
    (Ok false) (Ok tt)
    [Ok [main_window]] (Ok tt) (Ok tt)
    (Ok [main_window]).


(** MathType runs and shows its main window. *)
Definition started : startup :=
  mkStartup (Ok tt) (Ok tt) (Ok tt) [Ok [main_window]] (Ok tt).

(** MathType runs but no main window shows before the timeout (line 198). *)
Definition no_window_at_start : startup :=
  mkStartup (Ok tt) (Ok tt) (Ok tt) [Ok []; Ok []] (Ok tt).

Definition out_dir : string := "C:\docs\eps_output".

Definition empty_disk : filesystem := mkFs ∅ ∅.

(** A report with a line that has no second field between two that do. *)
Definition report_lines : list string :=
  ["Eqn1.eps" ++ String Py.tab "Times" ++ nl;
   "no preference here" ++ nl;
   "Eqn2.eps" ++ String Py.tab "Euclid" ++ nl].

(** The report exists but cannot be opened. *)
Definition disk_locked_report : filesystem :=
  mkFs {[ "report.txt" := Unreadable ]} ∅.

(** The unit file of three units, and a channel whose second unit times out
    on the save dialog. *)
Definition three_units_disk : filesystem :=
  mkFs {[ "mathml.txt" := Readable (line_one ++ line_two ++ line_three) ]}
       {[ out_dir ]}.

Definition second_times_out (i : nat) : channel :=
  if Nat.eqb i 2 then save_timeout else happy.

(** The unit file of one unit. *)
Definition one_unit_disk : filesystem :=
  mkFs {[ "mathml.txt" := Readable line_one ]} {[ out_dir ]}.

(** Three windows: one that is no popup, a popup that refuses the focus and
    a popup that takes the escape. *)
Definition stubborn_popup : window :=
  mkWindow "Confirm Save As" "#32770" (Ok tt) (Raise "no focus") (Ok tt).

Definition plain_window : window :=
  mkWindow "Untitled" "Notepad" (Ok tt) (Ok tt) (Ok tt).

Definition with_popups : channel :=
  mkChannel (Ok tt) (Ok tt) (Ok tt)
    [Ok [main_window]] (Ok tt) (Ok tt) (Ok tt) (Ok false) (Ok tt)
    [Ok [main_window]] (Ok tt) (Raise "timed out") (Ok tt) (Ok tt) (Ok false)
    (Ok tt)
    [Ok [main_window]] (Ok tt) (Ok tt)
    (Ok [plain_window; stubborn_popup; error_popup; main_window]).



(** A document with one equation, MathType installed, no report. *)
Definition env_one : environment :=
  mkEnv "C:\docs\doc.xml" out_dir
    "C:\Users\me\Desktop\EquationFontReport.txt"
    "C:\Users\me\Desktop\mathml.txt" true started (λ _, happy).

Definition disk_with_doc : filesystem :=
  mkFs {[ "C:\docs\doc.xml" := Readable xml_one;
          MATHTYPE_PATH := Unreadable ]}
       {[ "C:\docs"; "C:\Users\me\Desktop" ]}.

End Sample.

(** ** Further notions for the properties of the second part *)

From Stdlib Require Import Sorted.

(** The placeholders a trace reports (line 240). *)
Definition is_placeholder (e : event) : bool :=
  match e with EPlaceholder _ => true | _ => false end.

Definition placeholders (t : list event) : nat :=
  length (filter (λ e, is_placeholder e = true) t).

(** The lines the preference step logs (lines 86, 95, 103 and 108). *)
Definition is_preference_event (e : event) : bool :=
  match e with
  | EPrefNoWindow | EPrefApplied _ | EPrefDialogOk | EPrefFailed _ _ => true
  | _ => false
  end.

Definition no_preference_event (e : event) : bool :=
  negb (is_preference_event e).

(** [m] adds only events that satisfy [P]. *)
Definition emits_only (P : event -> bool) {A} (m : M A) : Prop :=
  ∀ w, ∃ t, trace (m w).2 = (trace w ++ t)%list ∧ Forall (λ e, P e = true) t.

(** [m] writes no file but empty ones at placeholder paths of [out], and
    makes no directory. *)
Definition writes_placeholders_only (out : string) {A} (m : M A) : Prop :=
  ∀ w,
    dirs (fs (m w).2) = dirs (fs w)
    ∧ ∀ p,
        files (fs (m w).2) !! p = files (fs w) !! p
        ∨ ((∃ n, p = placeholder_artifact out n)
           ∧ files (fs (m w).2) !! p = Some (Readable EmptyString)).

(** The name a unit gets: placeholder or real, with its index. *)
Definition artifact_name (out : string) (u : bool * Z) : string :=
  if u.1 then placeholder_artifact out u.2 else real_artifact out u.2.

(** The preference menu raises (line 94) while every other step succeeds. *)
Definition only_menu_fails (ch : channel) : Prop :=
  ok (clip_copy ch) ∧ ok (paste_clear ch) ∧ ok (paste_v ch)
  ∧ found (pref_polls ch) ∧ ok (pref_focus ch) ∧ ok (pref_select_all ch)
  ∧ raises (pref_menu ch)
  ∧ found (save_polls ch) ∧ ok (save_menu ch) ∧ saves_and_closes ch.

(** One entry of the report: the two stripped fields of a line that has
    them (lines 50-53). *)
Definition entry_of (line : string) : option (string * string) :=
  match Py.split Py.tab (Py.strip line) with
  | eps_name :: pref_name :: _ => Some (Py.strip eps_name, Py.strip pref_name)
  | _ => None
  end.


(** The characters of a decimal rendering: the digits and the minus sign. *)
Definition numeric (c : ascii) : bool :=
  let n := nat_of_ascii c in ((48 <=? n) && (n <=? 57) || (n =? 45))%nat.

Fixpoint all_numeric (s : string) : Prop :=
  match s with
  | String c s' => numeric c = true /\ all_numeric s'
  | EmptyString => True
  end.

(** ** Further sample inputs *)

Module More.

(** An equation without the altimg attribute. *)
Definition xml_plain : string := "<p><math><mi>x</mi></math></p>".

(** Two equations, the first with further attributes and a line break. *)
Definition xml_two : string :=
  "<p><math display=" ++ Sample.dq ++ "block" ++ Sample.dq ++ " altimg="
    ++ Sample.dq ++ "e1.png" ++ Sample.dq ++ "><mi>x</mi>" ++ Sample.nl
    ++ "</math> and <math altimg=" ++ Sample.dq ++ "e2.png" ++ Sample.dq
    ++ "><mi>y</mi></math></p>".

Definition unit_two_first : string * string :=
  ("<math altimg=" ++ Sample.dq ++ "e1.png" ++ Sample.dq ++ "><mi>x</mi>"
     ++ Sample.nl ++ "</math>", "e1.png").

Definition unit_two_second : string * string :=
  ("<math altimg=" ++ Sample.dq ++ "e2.png" ++ Sample.dq
     ++ "><mi>y</mi></math>", "e2.png").

(** The preference menu has no entry of the wanted name (line 94 raises). *)
Definition menu_fails : channel :=
  mkChannel (Ok tt) (Ok tt) (Ok tt)
    [Ok [Sample.main_window]] (Ok tt) (Ok tt) (Raise "no such menu item")
    (Ok false) (Ok tt)
    [Ok [Sample.main_window]] (Ok tt) (Ok tt) (Ok tt) (Ok tt) (Ok false)
    (Ok tt)
    [Ok [Sample.main_window]] (Ok tt) (Ok tt)
    (Ok [Sample.main_window]).

Definition prefs_one : gmap string string := {[ "Eqn1.eps" := "Times" ]}.

(** The overwrite confirmation shows and its button raises (line 135). *)
Definition confirm_fails : channel :=
  mkChannel (Ok tt) (Ok tt) (Ok tt)
    [Ok [Sample.main_window]] (Ok tt) (Ok tt) (Ok tt) (Ok false) (Ok tt)
    [Ok [Sample.main_window]] (Ok tt) (Ok tt) (Ok tt) (Ok tt) (Ok true)
    (Raise "no Yes button")
    [Ok [Sample.main_window]] (Ok tt) (Ok tt)
    (Ok [Sample.main_window]).

(** The document is there but cannot be read. *)
Definition disk_locked_doc : filesystem :=
  mkFs {[ "C:\docs\doc.xml" := Unreadable; MATHTYPE_PATH := Unreadable ]} ∅.

(** A report that names Eqn1.eps twice, with blanks around the fields. *)
Definition report_twice : list string :=
  ["Eqn1.eps" ++ String Py.tab "Times" ++ Sample.nl;
   "  Eqn1.eps " ++ String Py.tab " Euclid  " ++ String Py.tab "ignored"
     ++ Sample.nl;
   "Eqn2.eps" ++ String Py.tab "Times" ++ Sample.nl].

End More.

(** * Properties *)

(** ** Strings *)

Lemma sapp_cons (c : ascii) (s t : string) : String c s ++ t = String c (s ++ t).
Proof. reflexivity. Qed.

Lemma sapp_nil_l (s : string) : EmptyString ++ s = s.
Proof. reflexivity. Qed.

Lemma sapp_nil_r (s : string) : s ++ EmptyString = s.
Proof. induction s as [|c s IH]; [done|]. by rewrite sapp_cons, IH. Qed.

Lemma sapp_assoc (s t u : string) : (s ++ t) ++ u = s ++ t ++ u.
Proof. induction s as [|c s IH]; [done|]. by rewrite !sapp_cons, IH. Qed.

Lemma free_of_app (x : ascii) (s t : string) :
  Py.free_of x (s ++ t) <-> Py.free_of x s /\ Py.free_of x t.
Proof.
  induction s as [|c s IH].
  - rewrite sapp_nil_l. simpl. tauto.
  - rewrite sapp_cons. simpl. tauto.
Qed.

(** ** Extractor *)

Module ExtractorFacts.
Import Extractor.

Lemma lit_Some (p s r : string) : lit p s = Some r -> s = p ++ r.
Proof.
  revert s. induction p as [|a p IH]; intros s H; simpl in H.
  - by injection H as ->.
  - destruct s as [|b s]; [done|].
    destruct (Ascii.eqb_spec a b) as [->|]; [|done].
    rewrite sapp_cons. f_equal. by apply IH.
Qed.

Lemma star_not_Some (x : ascii) (k : string -> option hit) (s : string) (r : hit) :
  star_not x k s = Some r ->
  exists a t, s = a ++ t /\ Py.free_of x a /\ k t = Some r.
Proof.
  induction s as [|c s IH]; simpl; intros H.
  - by exists EmptyString, EmptyString.
  - destruct (Ascii.eqb_spec c x) as [->|Hne].
    + by exists EmptyString, (String x s).
    + destruct (star_not x k s) as [r'|] eqn:E.
      * destruct (IH H) as (a & t & -> & Ha & Hk).
        exists (String c a), t. by rewrite sapp_cons.
      * by exists EmptyString, (String c s).
Qed.

Lemma star_not_group_Some (x : ascii) (k : string -> string -> option hit)
  (acc s : string) (r : hit) :
  star_not_group x k acc s = Some r ->
  exists a t, s = a ++ t /\ Py.free_of x a /\ k (acc ++ a) t = Some r.
Proof.
  revert acc. induction s as [|c s IH]; simpl; intros acc H.
  - exists EmptyString, EmptyString. by rewrite (sapp_nil_r acc).
  - destruct (Ascii.eqb_spec c x) as [->|Hne].
    + exists EmptyString, (String x s). by rewrite (sapp_nil_r acc).
    + destruct (star_not_group x k _ s) as [r'|] eqn:E.
      * injection H as ->.
        destruct (IH _ E) as (a & t & -> & Ha & Hk).
        exists (String c a), t. rewrite sapp_cons. simpl.
        by rewrite sapp_assoc in Hk.
      * exists EmptyString, (String c s). by rewrite (sapp_nil_r acc).
Qed.

Lemma plus_not_group_Some (x : ascii) (k : string -> string -> option hit)
  (s : string) (r : hit) :
  plus_not_group x k s = Some r ->
  exists a t, s = a ++ t /\ a <> EmptyString /\ Py.free_of x a /\ k a t = Some r.
Proof.
  destruct s as [|c s]; simpl; [done|].
  destruct (Ascii.eqb_spec c x) as [->|Hne]; [done|]. intros H.
  destruct (star_not_group_Some _ _ _ _ _ H) as (a & t & -> & Ha & Hk).
  exists (String c a), t. by rewrite sapp_cons.
Qed.

Lemma lazy_any_group_Some (k : string -> string -> option hit)
  (acc s : string) (r : hit) :
  lazy_any_group k acc s = Some r ->
  exists a t, s = a ++ t /\ k (acc ++ a) t = Some r.
Proof.
  revert acc. induction s as [|c s IH]; simpl; intros acc H.
  - exists EmptyString, EmptyString. rewrite (sapp_nil_r acc).
    by destruct (k acc EmptyString).
  - destruct (k acc (String c s)) as [r'|] eqn:E.
    + exists EmptyString, (String c s). rewrite (sapp_nil_r acc). split; [done|congruence].
    + destruct (IH _ H) as (a & t & -> & Hk).
      exists (String c a), t. rewrite sapp_cons. by rewrite sapp_assoc in Hk.
Qed.

Lemma match_at_Some (s alt content rest : string) :
  match_at s = Some (alt, content, rest) ->
  exists attrs1 attrs2,
    s = span attrs1 alt attrs2 content ++ rest
    /\ Py.free_of gt attrs1 /\ Py.free_of gt attrs2
    /\ alt <> EmptyString /\ Py.free_of Py.dquote alt.
Proof.
  unfold match_at. intros H.
  apply bind_Some in H as (s1 & ->%lit_Some & H).
  apply star_not_Some in H as (a1 & s2 & -> & Ha1 & H).
  apply bind_Some in H as (s3 & ->%lit_Some & H).
  apply plus_not_group_Some in H as (al & s4 & -> & Hne & Hal & H).
  apply bind_Some in H as (s5 & ->%lit_Some & H).
  apply star_not_Some in H as (a2 & s6 & -> & Ha2 & H).
  apply bind_Some in H as (s7 & ->%lit_Some & H).
  apply lazy_any_group_Some in H as (body & s8 & -> & H).
  apply bind_Some in H as (rest' & ->%lit_Some & H).
  rewrite sapp_nil_l in H. injection H as -> -> ->.
  exists a1, a2. split_and!; try done.
  unfold span. by rewrite !sapp_assoc.
Qed.

Lemma findall_from_elem (s : string) (skip : nat) (alt content : string) :
  (alt, content) ∈ findall_from s skip ->
  exists before t rest, s = before ++ t /\ match_at t = Some (alt, content, rest).
Proof.
  revert skip. induction s as [|c s IH]; intros skip H; simpl in H.
  - by apply elem_of_nil in H.
  - assert (forall n, (alt, content) ∈ findall_from s n ->
        exists before t rest,
          String c s = before ++ t /\ match_at t = Some (alt, content, rest))
      as Hlater.
    { intros n Hn. destruct (IH _ Hn) as (b & t & rest & -> & Ht).
      exists (String c b), t, rest. by rewrite sapp_cons. }
    destruct skip as [|n]; [|by eapply Hlater].
    destruct (match_at (String c s)) as [[[alt' content'] rest]|] eqn:E;
      [|by eapply Hlater].
    apply elem_of_cons in H as [[= -> ->]|H]; [|by eapply Hlater].
    by exists EmptyString, (String c s), rest.
Qed.

End ExtractorFacts.

Lemma rebuild_span (alt content : string) :
  Extractor.rebuild alt content = Extractor.span " " alt EmptyString content.
Proof. reflexivity. Qed.

(** C10: every unit the extractor returns comes from a span of the document
    that starts with an opening tag carrying an altimg attribute and ends at a
    closing tag; the unit is not that span but a rebuilt string whose opening
    tag holds the altimg attribute alone, so whatever stood before and after
    that attribute in the original tag is dropped, while the reference and the
    body are the ones of the span, unchanged. *)
Theorem C10_units_rebuilt_with_altimg_only (xml_content block alt : string) :
  (block, alt) ∈ Extractor.blocks_of_text xml_content ->
  exists before attrs1 attrs2 body after,
    xml_content = before ++ Extractor.span attrs1 alt attrs2 body ++ after
    /\ Py.free_of Extractor.gt attrs1 /\ Py.free_of Extractor.gt attrs2
    /\ alt <> EmptyString /\ Py.free_of Py.dquote alt
    /\ block = Extractor.span " " alt EmptyString body.
Proof.
  unfold Extractor.blocks_of_text. intros H.
  apply list_elem_of_fmap in H as ([alt' content] & [= -> ->] & H).
  apply ExtractorFacts.findall_from_elem in H as (before & t & rest & -> & H).
  apply ExtractorFacts.match_at_Some in H
    as (attrs1 & attrs2 & -> & H1 & H2 & Hne & Halt).
  exists before, attrs1, attrs2, content, rest. simpl. split_and!; try done.
Qed.

Example extract_xml_one :
  Extractor.blocks_of_text Sample.xml_one = [(Sample.block_one, "e1.png")].
Proof. vm_compute. reflexivity. Qed.

Lemma C10_units_rebuilt_witness :
  (Sample.block_one, "e1.png") ∈ Extractor.blocks_of_text Sample.xml_one
  /\ exists before attrs1 attrs2 body after,
      Sample.xml_one = before ++ Extractor.span attrs1 "e1.png" attrs2 body ++ after
      /\ Py.free_of Extractor.gt attrs1 /\ Py.free_of Extractor.gt attrs2
      /\ "e1.png" <> EmptyString /\ Py.free_of Py.dquote "e1.png"
      /\ Sample.block_one = Extractor.span " " "e1.png" EmptyString body.
Proof.
  assert ((Sample.block_one, "e1.png")
            ∈ Extractor.blocks_of_text Sample.xml_one) as H.
  { vm_compute. left. }
  split; [exact H|].
  exact (C10_units_rebuilt_with_altimg_only _ _ _ H).
Defined.

(** C5: extraction reads nothing but the text of the document, so two runs
    on disks that hold the same document under the path end alike: both raise
    the same error or both return the same list, with as many units, in the
    same order, each with the same markup and the same reference. *)
Theorem C5_extraction_deterministic (disk1 disk2 : filesystem) (xml_path : string) :
  files disk1 !! xml_path = files disk2 !! xml_path ->
  Extractor.extract_mathml_blocks disk1 xml_path
    = Extractor.extract_mathml_blocks disk2 xml_path
  /\ forall blocks1 blocks2,
       Extractor.extract_mathml_blocks disk1 xml_path = Ok blocks1 ->
       Extractor.extract_mathml_blocks disk2 xml_path = Ok blocks2 ->
       length blocks1 = length blocks2
       /\ forall i : nat, blocks1 !! i = blocks2 !! i.
Proof.
  intros Hsame.
  assert (Extractor.extract_mathml_blocks disk1 xml_path
          = Extractor.extract_mathml_blocks disk2 xml_path) as Heq.
  { unfold Extractor.extract_mathml_blocks, read_text. by rewrite Hsame. }
  split; [exact Heq|].
  intros blocks1 blocks2 H1 H2. rewrite Heq, H2 in H1.
  by injection H1 as ->.
Qed.

Lemma C5_extraction_deterministic_witness :
  files Sample.disk_one !! "doc.xml" = files Sample.disk_one_later !! "doc.xml"
  /\ Extractor.extract_mathml_blocks Sample.disk_one "doc.xml"
     = Extractor.extract_mathml_blocks Sample.disk_one_later "doc.xml".
Proof.
  assert (files Sample.disk_one !! "doc.xml"
          = files Sample.disk_one_later !! "doc.xml") as H.
  { vm_compute. reflexivity. }
  split; [exact H|].
  exact (proj1 (C5_extraction_deterministic _ _ _ H)).
Defined.

(** ** PreferenceMap loader *)

Module PyFacts.

Lemma split_length (sep : ascii) (s : string) :
  length (Py.split sep s) = S (Py.count sep s).
Proof.
  induction s as [|c s IH]; simpl; [done|].
  destruct (Ascii.eqb c sep); simpl; [by rewrite IH|].
  destruct (Py.split sep s) as [|h t]; simpl in *; lia.
Qed.

Lemma count_lstrip (x : ascii) (s : string) :
  (Py.count x (Py.lstrip s) <= Py.count x s)%nat.
Proof.
  induction s as [|c s IH]; simpl; [done|].
  destruct (Py.isspace c); simpl; lia.
Qed.

Lemma count_rstrip (x : ascii) (s : string) :
  (Py.count x (Py.rstrip s) <= Py.count x s)%nat.
Proof.
  induction s as [|c s IH]; simpl; [done|].
  destruct (Py.rstrip s) as [|d r]; simpl in *.
  - destruct (Py.isspace c); simpl; lia.
  - lia.
Qed.

Lemma count_strip (x : ascii) (s : string) :
  (Py.count x (Py.strip s) <= Py.count x s)%nat.
Proof.
  unfold Py.strip. etrans; [apply count_rstrip|apply count_lstrip].
Qed.

End PyFacts.

Lemma parse_line_short (mapping : gmap string string) (line : string) :
  (length (Py.split Py.tab line) < 2)%nat ->
  Preferences.parse_line mapping line = mapping.
Proof.
  intros H. unfold Preferences.parse_line.
  pose proof (PyFacts.split_length Py.tab (Py.strip line)) as Hs.
  pose proof (PyFacts.count_strip Py.tab line) as Hc.
  rewrite PyFacts.split_length in H.
  destruct (Py.split Py.tab (Py.strip line)) as [|p0 [|p1 ps]]; simpl in Hs;
    [done|done|lia].
Qed.


(** C6, as the code has it: a line of the report with fewer than two
    tab-delimited fields leaves the mapping as it was, so the mapping built
    from a report is the one built from the report without that line; when
    no report file exists the loader warns once and returns the empty mapping
    without raising; when the report exists but cannot be read, the loader
    raises. *)
Theorem C6_short_lines_skipped_missing_report_empty
  (mapping : gmap string string) (before after : list string)
  (line report_file : string) (w : world) :
  (length (Py.split Py.tab line) < 2)%nat ->
  path_exists (fs w) report_file = false ->
  Preferences.parse_line mapping line = mapping
  /\ Preferences.parse_lines mapping (before ++ line :: after)
     = Preferences.parse_lines mapping (before ++ after)
  /\ read_eps_preferences report_file w
     = (Ok ∅, mkWorld (eqn_counter w) (fs w)
                 (trace w ++ [EReportMissing report_file]))
  /\ (forall w2 : world,
        files (fs w2) !! report_file = Some Unreadable ->
        exists e, read_eps_preferences report_file w2 = (Raise e, w2)).
Proof.
  intros Hshort Hmissing. split_and!.
  - by apply parse_line_short.
  - unfold Preferences.parse_lines. rewrite !foldl_app. simpl.
    by rewrite parse_line_short.
  - unfold read_eps_preferences, bind, get_fs. by rewrite Hmissing.
  - intros w2 H.
    unfold read_eps_preferences, bind, get_fs, path_exists, call, read_text.
    rewrite H, bool_decide_eq_true_2 by eauto. by eexists.
Qed.

(** ** Frames *)

Section Frames.
Context {A B : Type}.

Lemma keeps_ret (a : A) : keeps (ret a).
Proof. intros w. exists []. by rewrite app_nil_r. Qed.

Lemma keeps_raise (e : string) : keeps (@raise A e).
Proof. intros w. exists []. by rewrite app_nil_r. Qed.

Lemma keeps_call (o : outcome A) : keeps (call o).
Proof. intros w. exists []. by rewrite app_nil_r. Qed.

Lemma keeps_bind (m : M A) (f : A -> M B) :
  keeps m -> (forall a, keeps (f a)) -> keeps (bind m f).
Proof.
  intros Hm Hf w. unfold bind.
  destruct (Hm w) as (t1 & Ht1 & Hq1 & Hfs1 & Hc1).
  destruct (m w) as [[a|e] w1]; simpl in *.
  - destruct (Hf a w1) as (t2 & Ht2 & Hq2 & Hfs2 & Hc2).
    exists (t1 ++ t2)%list. rewrite Ht2, Ht1, Hfs2, Hc2, app_assoc.
    split_and!; try done. by apply Forall_app.
  - by exists t1.
Qed.

Lemma keeps_try (m : M A) (h : string -> M A) :
  keeps m -> (forall e, keeps (h e)) -> keeps (try_except m h).
Proof.
  intros Hm Hh w. unfold try_except.
  destruct (Hm w) as (t1 & Ht1 & Hq1 & Hfs1 & Hc1).
  destruct (m w) as [[a|e] w1]; simpl in *.
  - by exists t1.
  - destruct (Hh e w1) as (t2 & Ht2 & Hq2 & Hfs2 & Hc2).
    exists (t1 ++ t2)%list. rewrite Ht2, Ht1, Hfs2, Hc2, app_assoc.
    split_and!; try done. by apply Forall_app.
Qed.

Lemma never_raises_try (m : M A) (h : string -> M A) :
  (forall e, never_raises (h e)) -> never_raises (try_except m h).
Proof.
  intros Hh w. unfold try_except.
  destruct (m w) as [[a|e] w1]; simpl; [by exists a|apply Hh].
Qed.

Lemma never_raises_ret (a : A) : never_raises (ret a).
Proof. intros w. by exists a. Qed.

Lemma never_raises_bind (m : M A) (f : A -> M B) :
  never_raises m -> (forall a, never_raises (f a)) -> never_raises (bind m f).
Proof.
  intros Hm Hf w. unfold bind. destruct (Hm w) as [a Ha].
  destruct (m w) as [[a'|e] w1]; simpl in *; [apply Hf|done].
Qed.

End Frames.

Lemma keeps_emit (e : event) : quiet e = true -> keeps (emit e).
Proof. intros H w. exists [e]. split_and!; try done. by constructor. Qed.

Lemma keeps_get_counter : keeps get_counter.
Proof. intros w. exists []. by rewrite app_nil_r. Qed.

Lemma never_raises_emit (e : event) : never_raises (emit e).
Proof. intros w. by exists tt. Qed.

Ltac frames :=
  repeat first
    [ progress intros
    | apply keeps_bind | apply keeps_try | apply keeps_emit; reflexivity
    | apply keeps_ret | apply keeps_raise | apply keeps_call
    | apply keeps_get_counter
    | apply never_raises_try | apply never_raises_bind
    | apply never_raises_emit | apply never_raises_ret
    | match goal with |- keeps (match ?x with _ => _ end) => destruct x end
    | match goal with |- keeps (if ?x then _ else _) => destruct x end
    | match goal with
      | |- never_raises (match ?x with _ => _ end) => destruct x
      end
    | match goal with
      | |- never_raises (if ?x then _ else _) => destruct x
      end ].

(** ** Renderer controller and failure recovery, step by step *)

Lemma keeps_apply_preferences (ch : channel) (name : string) :
  keeps (apply_preferences ch name).
Proof. unfold apply_preferences. frames. Qed.

Lemma keeps_close_current_window (ch : channel) :
  keeps (close_current_window ch).
Proof. unfold close_current_window. frames. Qed.

Lemma close_current_window_returns (ch : channel) :
  never_raises (close_current_window ch).
Proof. unfold close_current_window. frames. Qed.

Lemma keeps_dismiss_loop (ws : list window) : keeps (dismiss_loop ws).
Proof. induction ws as [|w ws IH]; simpl; frames; apply IH. Qed.

Lemma keeps_dismiss_error_popup (ch : channel) :
  keeps (dismiss_error_popup ch).
Proof. unfold dismiss_error_popup. frames. apply keeps_dismiss_loop. Qed.

Lemma dismiss_error_popup_returns (ch : channel) :
  never_raises (dismiss_error_popup ch).
Proof. unfold dismiss_error_popup. frames. Qed.

(** ** Counting in traces *)

Lemma artifacts_app (t1 t2 : list event) :
  artifacts (t1 ++ t2) = (artifacts t1 ++ artifacts t2)%list.
Proof. apply omap_app. Qed.

Lemma dismissals_app (t1 t2 : list event) :
  dismissals (t1 ++ t2) = (dismissals t1 + dismissals t2)%nat.
Proof. unfold dismissals. by rewrite filter_app, length_app. Qed.

Lemma starts_app (t1 t2 : list event) :
  starts (t1 ++ t2) = (starts t1 + starts t2)%nat.
Proof. unfold starts. by rewrite filter_app, length_app. Qed.

Lemma quiet_trace (t : list event) :
  Forall (λ e, quiet e = true) t ->
  artifacts t = [] /\ dismissals t = 0%nat /\ starts t = 0%nat.
Proof.
  induction 1 as [|e t He _ (IH1 & IH2 & IH3)]; [done|].
  change (e :: t) with ([e] ++ t)%list.
  rewrite artifacts_app, dismissals_app, starts_app, IH1, IH2, IH3.
  by destruct e.
Qed.

(** ** The save step *)

Lemma save_as_eps_cases (out : string) (ch : channel) (w : world) :
  exists r w',
    save_as_eps out ch w = (r, w') /\ fs w' = fs w
    /\ match r with
       | Ok name =>
           name = eps_name_of (eqn_counter w)
           /\ trace w' = (trace w ++ [ESavedEps (real_artifact out (eqn_counter w))])%list
           /\ eqn_counter w' = eqn_counter w + 1
       | Raise e =>
           trace w' = trace w
           /\ (eqn_counter w' = eqn_counter w
               \/ (eqn_counter w' = eqn_counter w + 1 /\ fails_after_count ch))
       end.
Proof.
  unfold save_as_eps, fails_after_count, found, ok, raises, bind, call.
  destruct (get_main_window (save_polls ch)) as [[w0|]|e0] eqn:Hw;
    [|by eexists _, _; split_and!; [done..|]; simpl; auto
     |by eexists _, _; split_and!; [done..|]; simpl; auto].
  destruct (save_menu ch) as [[]|e1] eqn:Hmenu;
    [|by eexists _, _; split_and!; [done..|]; simpl; auto].
  destruct (save_dlg_wait ch) as [[]|e2] eqn:Hwait;
    [|by eexists _, _; split_and!; [done..|]; simpl; auto].
  simpl.
  destruct (save_set_text ch) as [[]|e3] eqn:Htext.
  2:{ eexists _, _. split_and!; [done..|]. simpl. split; [done|].
      right. split; [done|]. split_and!; eauto. }
  destruct (save_click ch) as [[]|e4] eqn:Hclick.
  2:{ eexists _, _. split_and!; [done..|]. simpl. split; [done|].
      right. split; [done|]. split_and!; eauto. }
  unfold try_except.
  destruct (confirm_exists ch) as [[|]|e5]; simpl;
    [destruct (confirm_yes ch) as [[]|e6]; simpl|..];
    by eexists _, _; split_and!; [done..|]; simpl.
Qed.

(** ** The body of the [try] *)

Lemma ends_as_unit_after {A} (out : string) (ch : channel)
  (p : M A) (f : A -> M unit) :
  keeps p -> (forall a, ends_as_unit out ch (f a)) ->
  ends_as_unit out ch (bind p f).
Proof.
  intros Hp Hf w. unfold bind.
  destruct (Hp w) as (t0 & Ht0 & Hq0 & Hfs0 & Hc0).
  destruct (p w) as [[a|e] w0]; simpl in *.
  - destruct (Hf a w0) as [Hfs H]. split; [congruence|].
    destruct ((f a w0).1) as [[]|e'].
    + destruct H as (t1 & t2 & Ht & Hq1 & Hq2 & Hc).
      exists (t0 ++ t1)%list, t2. rewrite Ht, Ht0, Hc0 in *.
      rewrite <- !app_assoc. split_and!; try done. by apply Forall_app.
    + destruct H as (t & Ht & Hq & Hc).
      exists (t0 ++ t)%list. rewrite Ht, Ht0, Hc0 in *.
      rewrite <- !app_assoc. split_and!; try done. by apply Forall_app.
  - split; [done|]. exists t0. split_and!; try done. by left.
Qed.

Lemma save_then_close_ends_as_unit (out : string) (ch : channel) :
  ends_as_unit out ch (save_as_eps out ch;; close_current_window ch).
Proof.
  intros w. unfold bind.
  destruct (save_as_eps_cases out ch w) as (r & w1 & -> & Hfs & H).
  destruct r as [name|e]; simpl.
  - destruct H as (_ & Ht & Hc).
    destruct (keeps_close_current_window ch w1) as (t2 & Ht2 & Hq2 & Hfs2 & Hc2).
    destruct (close_current_window_returns ch w1) as [[] Hok].
    rewrite Hok. split; [congruence|].
    exists [], t2. rewrite Ht2, Ht, Hc2, Hc. simpl.
    rewrite <- app_assoc. by split_and!.
  - destruct H as (Ht & Hc). split; [done|].
    exists []. rewrite app_nil_r. by split_and!.
Qed.

Lemma unit_body_ends_as_unit (out : string) (ch : channel)
  (eps_pref_map : gmap string string) (block : string) :
  ends_as_unit out ch (unit_body out ch eps_pref_map block).
Proof.
  unfold unit_body, paste_mathml_to_mathtype.
  apply ends_as_unit_after; [frames|intros _].
  apply ends_as_unit_after; [frames|intros _].
  apply ends_as_unit_after; [frames|intros n].
  apply ends_as_unit_after; [|intros _; apply save_then_close_ends_as_unit].
  destruct (eps_pref_map !! eps_name_of n) as [preference|]; [|frames].
  destruct (Py.truthy preference); [apply keeps_apply_preferences|frames].
Qed.


(** ** Placeholders in traces *)

Lemma placeholders_app (t1 t2 : list event) :
  placeholders (t1 ++ t2) = (placeholders t1 + placeholders t2)%nat.
Proof. unfold placeholders. by rewrite filter_app, length_app. Qed.

Lemma quiet_no_placeholder (t : list event) :
  Forall (λ e, quiet e = true) t -> placeholders t = 0%nat.
Proof.
  induction 1 as [|e t He _ IH]; [done|].
  change (e :: t) with ([e] ++ t)%list. rewrite placeholders_app, IH.
  by destruct e.
Qed.

(** ** Writing files *)

Lemma has_sep_app (s t : string) : has_sep (s ++ t) = has_sep s || has_sep t.
Proof.
  induction s as [|c s IH]; [done|]. rewrite sapp_cons. cbn [has_sep].
  by rewrite IH, orb_assoc.
Qed.

Lemma folder_of_join (folder name : string) :
  has_sep name = false -> folder_of (folder ++ "\" ++ name) = folder.
Proof.
  intros Hname. induction folder as [|c folder IH].
  - rewrite sapp_nil_l. change ("\" ++ name) with (String "\"%char name).
    cbn [folder_of]. by rewrite Hname.
  - rewrite sapp_cons. cbn [folder_of].
    rewrite has_sep_app.
    replace (has_sep ("\" ++ name)) with true by reflexivity.
    rewrite orb_true_r. by rewrite IH.
Qed.

Lemma pretty_N_char_numeric (x : N) : numeric (pretty_N_char x) = true.
Proof. unfold pretty_N_char. by repeat case_match. Qed.

Lemma pretty_N_go_numeric (x : N) (s : string) :
  all_numeric s -> all_numeric (pretty_N_go x s).
Proof.
  revert s. induction (N.lt_wf_0 x) as [x _ IH]; intros s Hs.
  assert (x = 0 \/ 0 < x)%N as [->|Hx] by lia.
  - by rewrite pretty_N_go_0.
  - rewrite pretty_N_go_step by done. apply IH; [by apply N.div_lt|].
    split; [apply pretty_N_char_numeric|done].
Qed.

Lemma pretty_N_numeric (x : N) : all_numeric (pretty x).
Proof.
  unfold pretty, pretty_N. destruct (decide (x = 0%N)); [done|].
  by apply pretty_N_go_numeric.
Qed.

Lemma pretty_Z_numeric (n : Z) : all_numeric (pretty n).
Proof.
  destruct n as [|p|p]; [done|apply (pretty_N_numeric (Npos p))|].
  unfold pretty, pretty_Z. split; [done|apply (pretty_N_numeric (Npos p))].
Qed.

Lemma numeric_no_sep (s : string) : all_numeric s -> has_sep s = false.
Proof.
  induction s as [|c s IH]; [done|]. intros [Hc Hs]. cbn [has_sep].
  rewrite (IH Hs), orb_false_r. unfold is_sep.
  destruct (Ascii.eqb_spec c "\"%char) as [->|_]; [done|].
  by destruct (Ascii.eqb_spec c "/"%char) as [->|_].
Qed.

Lemma placeholder_folder (out : string) (n : Z) :
  folder_of (placeholder_artifact out n) = out.
Proof.
  unfold placeholder_artifact, in_output_dir, failed_name_of.
  apply folder_of_join. rewrite !has_sep_app.
  by rewrite (numeric_no_sep _ (pretty_Z_numeric n)).
Qed.



Lemma write_text_cases (disk : filesystem) (p t : string) :
  (writable disk p /\ write_text disk p t = Ok (with_file disk p t))
  \/ (~ writable disk p /\ exists e, write_text disk p t = Raise e).
Proof.
  unfold writable, write_text.
  destruct (bool_decide (p ∈ dirs disk)) eqn:Hp.
  { apply bool_decide_eq_true in Hp. right. split; [tauto|by eexists]. }
  apply bool_decide_eq_false in Hp.
  destruct (bool_decide (folder_of p ∈ dirs disk)) eqn:Hf.
  - apply bool_decide_eq_true in Hf. by left.
  - apply bool_decide_eq_false in Hf. right. split; [tauto|by eexists].
Qed.

Lemma placeholder_writable (out : string) (disk : filesystem) (n : Z) :
  placeholders_writable out disk -> writable disk (placeholder_artifact out n).
Proof. intros [Hout Hn]. split; [apply Hn|by rewrite placeholder_folder]. Qed.

Lemma placeholders_writable_with_file (out : string) (disk : filesystem)
  (p t : string) :
  placeholders_writable out disk -> placeholders_writable out (with_file disk p t).
Proof. done. Qed.

(** ** The [except] branch and one turn of the loop *)

Lemma unit_failed_spec (out : string) (ch : channel) (i : nat) (e : string)
  (w1 : world) :
  exists dismissed t,
    Forall (λ e, quiet e = true) t
    /\ unit_failed out ch i e w1
       = match write_text (fs w1)
                 (placeholder_artifact out (eqn_counter w1)) "" with
         | Ok written =>
             (Ok tt,
              mkWorld (eqn_counter w1 + 1) written
                (trace w1 ++ [EError i e] ++ t
                   ++ [EDismissed dismissed;
                       EPlaceholder
                         (placeholder_artifact out (eqn_counter w1))]))
         | Raise e' =>
             (Raise e',
              mkWorld (eqn_counter w1) (fs w1)
                (trace w1 ++ [EError i e] ++ t ++ [EDismissed dismissed]))
         end.
Proof.
  unfold unit_failed, bind, emit at 1. simpl.
  set (w2 := mkWorld _ _ _).
  destruct (keeps_dismiss_error_popup ch w2) as (t & Ht & Hq & Hfs & Hc).
  destruct (dismiss_error_popup_returns ch w2) as [dismissed Hok].
  destruct (dismiss_error_popup ch w2) as [r w3]. simpl in *. subst r.
  exists dismissed, t. split; [done|].
  unfold emit, get_counter, get_fs, set_fs, set_counter, call. simpl.
  rewrite Ht, Hfs, Hc. unfold w2. simpl.
  fold (placeholder_artifact out (eqn_counter w1)).
  destruct (write_text (fs w1) (placeholder_artifact out (eqn_counter w1)) "");
    by rewrite <- !app_assoc.
Qed.

Lemma process_line_skips (out : string) (ch : channel)
  (eps_pref_map : gmap string string) (i : nat) (line : string) (w : world) :
  is_unit line = false ->
  process_line out ch eps_pref_map i line w = (Ok tt, w).
Proof. unfold process_line, is_unit. by intros ->. Qed.

(** One turn for a unit: it is saved; or its body raises and the placeholder
    is written; or its body raises and the placeholder cannot be written, in
    which case the turn raises. *)
Lemma process_line_unit (out : string) (ch : channel)
  (eps_pref_map : gmap string string) (i : nat) (line : string) (w : world) :
  is_unit line = true ->
  exists r w' t,
    process_line out ch eps_pref_map i line w = (r, w')
    /\ trace w' = (trace w ++ t)%list /\ starts t = 1%nat
    /\ ((r = Ok tt
         /\ artifacts t = [real_artifact out (eqn_counter w)]
         /\ dismissals t = 0%nat /\ placeholders t = 0%nat
         /\ eqn_counter w' = eqn_counter w + 1 /\ fs w' = fs w
         /\ exists w1, unit_body out ch eps_pref_map (Py.strip line)
                         (mkWorld (eqn_counter w) (fs w)
                            (trace w ++ [EProcessing i])) = (Ok tt, w1))
        \/ (exists n e w1,
             unit_body out ch eps_pref_map (Py.strip line)
               (mkWorld (eqn_counter w) (fs w) (trace w ++ [EProcessing i]))
             = (Raise e, w1)
             /\ eqn_counter w1 = n
             /\ dismissals t = 1%nat
             /\ (n = eqn_counter w
                 \/ (n = eqn_counter w + 1 /\ fails_after_count ch))
             /\ ((r = Ok tt
                  /\ writable (fs w) (placeholder_artifact out n)
                  /\ fs w' = with_file (fs w) (placeholder_artifact out n) ""
                  /\ artifacts t = [placeholder_artifact out n]
                  /\ placeholders t = 1%nat
                  /\ eqn_counter w' = n + 1)
                 \/ (exists e',
                      r = Raise e'
                      /\ ~ writable (fs w) (placeholder_artifact out n)
                      /\ fs w' = fs w
                      /\ artifacts t = [] /\ placeholders t = 0%nat
                      /\ eqn_counter w' = n)))).
Proof.
  unfold process_line, is_unit. intros ->.
  unfold bind at 1, emit at 1, try_except.
  set (w0 := mkWorld _ _ _).
  destruct (unit_body_ends_as_unit out ch eps_pref_map (Py.strip line) w0)
    as [Hfs H].
  destruct (unit_body out ch eps_pref_map (Py.strip line) w0) as [[[]|e] w1];
    simpl in *.
  - destruct H as (t1 & t2 & Ht & Hq1 & Hq2 & Hc).
    destruct (quiet_trace _ Hq1) as (Ha1 & Hd1 & Hs1).
    destruct (quiet_trace _ Hq2) as (Ha2 & Hd2 & Hs2).
    exists (Ok tt), w1,
      ([EProcessing i] ++ t1
         ++ [ESavedEps (real_artifact out (eqn_counter w))] ++ t2)%list.
    split; [done|]. split; [by rewrite Ht, <- !app_assoc|].
    rewrite !starts_app, !artifacts_app, !dismissals_app, !placeholders_app.
    rewrite Ha1, Ha2, Hd1, Hd2, Hs1, Hs2.
    rewrite (quiet_no_placeholder t1), (quiet_no_placeholder t2) by done.
    split; [done|]. left. split_and!; try done. by exists w1.
  - destruct H as (t & Ht & Hq & Hc).
    destruct (quiet_trace _ Hq) as (Ha & Hd & Hs).
    destruct (unit_failed_spec out ch i e w1) as (dismissed & t' & Hq' & ->).
    destruct (quiet_trace _ Hq') as (Ha' & Hd' & Hs').
    rewrite Hfs.
    destruct (write_text_cases (fs w) (placeholder_artifact out (eqn_counter w1)) "")
      as [[Hw ->]|[Hw [e' ->]]].
    + eexists (Ok tt), _,
        ([EProcessing i] ++ t ++ [EError i e] ++ t'
           ++ [EDismissed dismissed;
               EPlaceholder (placeholder_artifact out (eqn_counter w1))])%list.
      split; [done|]. cbn [trace eqn_counter fs].
      split; [by rewrite Ht, <- !app_assoc|].
      rewrite !starts_app, !artifacts_app, !dismissals_app, !placeholders_app.
      rewrite Ha, Ha', Hd, Hd', Hs, Hs'.
      rewrite (quiet_no_placeholder t), (quiet_no_placeholder t') by done.
      split; [done|]. right. exists (eqn_counter w1), e, w1.
      split_and!; try done. left. by split_and!.
    + eexists (Raise e'), _,
        ([EProcessing i] ++ t ++ [EError i e] ++ t'
           ++ [EDismissed dismissed])%list.
      split; [done|]. cbn [trace eqn_counter fs].
      split; [by rewrite Ht, <- !app_assoc|].
      rewrite !starts_app, !artifacts_app, !dismissals_app, !placeholders_app.
      rewrite Ha, Ha', Hd, Hd', Hs, Hs'.
      rewrite (quiet_no_placeholder t), (quiet_no_placeholder t') by done.
      split; [done|]. right. exists (eqn_counter w1), e, w1.
      split_and!; try done. right. exists e'. by split_and!.
Qed.

(** Under [placeholders_writable] a turn for a unit always returns, and the
    placeholders stay writable. *)
Lemma process_line_unit_written (out : string) (ch : channel)
  (eps_pref_map : gmap string string) (i : nat) (line : string) (w : world) :
  is_unit line = true ->
  placeholders_writable out (fs w) ->
  exists w' t,
    process_line out ch eps_pref_map i line w = (Ok tt, w')
    /\ trace w' = (trace w ++ t)%list /\ starts t = 1%nat
    /\ placeholders_writable out (fs w')
    /\ ((artifacts t = [real_artifact out (eqn_counter w)]
         /\ dismissals t = 0%nat /\ placeholders t = 0%nat
         /\ eqn_counter w' = eqn_counter w + 1 /\ fs w' = fs w
         /\ exists w1, unit_body out ch eps_pref_map (Py.strip line)
                         (mkWorld (eqn_counter w) (fs w)
                            (trace w ++ [EProcessing i])) = (Ok tt, w1))
        \/ (exists n e w1,
             unit_body out ch eps_pref_map (Py.strip line)
               (mkWorld (eqn_counter w) (fs w) (trace w ++ [EProcessing i]))
             = (Raise e, w1)
             /\ eqn_counter w1 = n
             /\ artifacts t = [placeholder_artifact out n]
             /\ dismissals t = 1%nat /\ placeholders t = 1%nat
             /\ eqn_counter w' = n + 1
             /\ fs w' = with_file (fs w) (placeholder_artifact out n) ""
             /\ (n = eqn_counter w
                 \/ (n = eqn_counter w + 1 /\ fails_after_count ch)))).
Proof.
  intros Hu Hdisk.
  destruct (process_line_unit out ch eps_pref_map i line w Hu)
    as (r & w' & t & Hline & Ht & Hs & H).
  destruct H as [(-> & Ha & Hd & Hp & Hc & Hfs & Hbody)
                |(n & e & w1 & Hbody & Hn & Hd & Hcases & H)].
  - exists w', t. split_and!; try done; [by rewrite Hfs|]. by left.
  - destruct H as [(-> & Hw & Hfs & Ha & Hp & Hc)
                  |(e' & _ & Hw & _)].
    + exists w', t. split_and!; try done; [by rewrite Hfs|].
      right. exists n, e, w1. by split_and!.
    + destruct Hw. by apply placeholder_writable.
Qed.




(** ** Units that go through, units whose save dialog does not show *)

Ltac open_channel :=
  repeat match goal with
    | H : _ /\ _ |- _ => destruct H
    | H : ok _ |- _ => destruct H as [? H]
    | H : raises _ |- _ => destruct H as [? H]
    | H : found _ |- _ => destruct H as [? H]
    end.






(** ** The start of the run *)






(** ** The sample channels *)

Ltac sample_channel :=
  repeat split; try (left; eexists; reflexivity); eexists; reflexivity.




(** ** Failure recovery *)

Lemma attempts_app (t1 t2 : list event) :
  attempts (t1 ++ t2) = (attempts t1 ++ attempts t2)%list.
Proof. apply omap_app. Qed.

Lemma dismiss_loop_spec (all_windows : list window) :
  forall w : world,
    exists t,
      dismiss_loop all_windows w
      = (Ok (existsb dismissable all_windows),
         mkWorld (eqn_counter w) (fs w) (trace w ++ t))
      /\ attempts t = attempted_windows all_windows.
Proof.
  induction all_windows as [|p later IH]; intros w.
  - exists [ENoPopup]. by split.
  - cbn [dismiss_loop existsb attempted_windows]. unfold dismissable at 1.
    destruct (looks_like_popup (window_text p)) eqn:Hp; cbn [andb].
    2:{ by apply IH. }
    unfold can_dismiss, bind, try_except, call, emit, ret.
    cbn [eqn_counter fs trace].
    destruct (print_ids p) as [[]|e0];
      (destruct (set_focus p) as [[]|e1];
       [destruct (send_esc p) as [[]|e2]|]); cbn [orb eqn_counter fs trace];
      try (eexists; split;
           [rewrite <- !app_assoc; reflexivity|reflexivity]);
      match goal with
      | |- context [dismiss_loop later ?w1] =>
          destruct (IH w1) as (t & -> & Ht); cbn [eqn_counter fs trace];
          eexists; split; [rewrite <- !app_assoc; reflexivity|];
          rewrite ?attempts_app, Ht; reflexivity
      end.
Qed.

Lemma existsb_dismissable (all_windows : list window) :
  existsb dismissable all_windows = true
  <-> exists p, p ∈ all_windows
        /\ looks_like_popup (window_text p) = true /\ can_dismiss p = true.
Proof.
  rewrite existsb_exists. unfold dismissable. split.
  - intros (p & Hin & [??]%andb_true_iff). exists p.
    by rewrite list_elem_of_In.
  - intros (p & Hin & H1 & H2). exists p.
    rewrite <- list_elem_of_In, H1, H2. done.
Qed.

(** C9: the popup dismissal goes through the windows the application
    enumerates; a window counts as a popup when its title, in lower case,
    contains one of error, math, warning, confirm, save, server; on each such
    window, in order, it tries focus and escape, and stops at the first that
    succeeds.  It returns true exactly when some such window could be
    dismissed, hence false when no title matches and false when every attempt
    fails; it never raises and touches neither the counter nor the disk. *)
Theorem C9_popup_dismissal (ch : channel) (all_windows : list window)
  (w : world) :
  popup_windows ch = Ok all_windows ->
  (exists t,
     dismiss_error_popup ch w
     = (Ok (existsb dismissable all_windows),
        mkWorld (eqn_counter w) (fs w) (trace w ++ t))
     /\ attempts t = attempted_windows all_windows)
  /\ (existsb dismissable all_windows = true
      <-> exists p, p ∈ all_windows
            /\ looks_like_popup (window_text p) = true
            /\ can_dismiss p = true)
  /\ ((forall p, p ∈ all_windows -> looks_like_popup (window_text p) = false)
      -> existsb dismissable all_windows = false
         /\ attempted_windows all_windows = [])
  /\ ((forall p, p ∈ all_windows -> looks_like_popup (window_text p) = true ->
                 can_dismiss p = false)
      -> existsb dismissable all_windows = false)
  /\ (forall title,
        looks_like_popup title = true
        <-> exists keyword,
              keyword ∈ ["error"; "math"; "warning"; "confirm"; "save"; "server"]
              /\ Py.contains keyword (Py.lower title) = true).
Proof.
  intros Hws. split_and!.
  - unfold dismiss_error_popup, try_except, bind at 1, call at 1.
    rewrite Hws. destruct (dismiss_loop_spec all_windows w) as (t & -> & Ht).
    by exists t.
  - apply existsb_dismissable.
  - intros Hnone. split.
    + apply not_true_is_false. intros (p & Hin & H1 & _)%existsb_dismissable.
      by rewrite (Hnone p Hin) in H1.
    + clear Hws. induction all_windows as [|p later IH]; [done|]. simpl.
      rewrite (Hnone p) by left. apply IH. intros q Hq. apply Hnone. by right.
  - intros Hfail. apply not_true_is_false.
    intros (p & Hin & H1 & H2)%existsb_dismissable.
    by rewrite (Hfail p Hin H1) in H2.
  - intros title. unfold looks_like_popup, popup_keywords.
    rewrite existsb_exists. split.
    + intros (k & Hin & Hk). exists k. by rewrite list_elem_of_In.
    + intros (k & Hin & Hk). exists k. by rewrite <- list_elem_of_In.
Qed.

Lemma C9_popup_dismissal_witness :
  popup_windows Sample.with_popups
  = Ok [Sample.plain_window; Sample.stubborn_popup; Sample.error_popup;
        Sample.main_window]
  /\ exists t,
      dismiss_error_popup Sample.with_popups (state_at_import Sample.empty_disk)
      = (Ok true, mkWorld 1 Sample.empty_disk t)
      /\ attempts t = ["Confirm Save As"; "MathType Error"].
Proof.
  assert (popup_windows Sample.with_popups
          = Ok [Sample.plain_window; Sample.stubborn_popup; Sample.error_popup;
                Sample.main_window]) as H by reflexivity.
  split; [exact H|].
  destruct (C9_popup_dismissal Sample.with_popups _
              (state_at_import Sample.empty_disk) H)
    as ((t & Hrun & Ht) & _).
  exists t. split; [exact Hrun|exact Ht].
Defined.

Lemma dismiss_error_popup_enumeration_fails (ch : channel) (e : string)
  (w : world) :
  popup_windows ch = Raise e ->
  dismiss_error_popup ch w
  = (Ok false, mkWorld (eqn_counter w) (fs w) (trace w ++ [EPopupError e])).
Proof.
  intros H. unfold dismiss_error_popup, try_except, bind, call. by rewrite H.
Qed.

(** ** The main window is not found *)






Lemma get_main_window_raises (polls : list (outcome (list window)))
  (e : string) :
  get_main_window polls = Raise e -> Raise e ∈ polls.
Proof.
  induction polls as [|[ws|e'] later IH]; simpl; [done| |].
  - destruct (find is_main_window ws); [done|]. intros H. right. by apply IH.
  - intros [= ->]. left.
Qed.





(** At the start of the run the result of the search is used unchecked
    (line 199): when no main window shows, the call raises outside every try
    and the run ends before the first unit. *)
Example no_window_at_start_ends_run :
  not_found (start_polls Sample.no_window_at_start)
  /\ process_mathml_blocks_from_file Sample.out_dir Sample.no_window_at_start
       (λ _, Sample.happy) "mathml.txt" ∅
       (state_at_import Sample.one_unit_disk)
     = (Raise "'NoneType' object has no attribute 'set_focus'",
        mkWorld 1 Sample.one_unit_disk [EConnected]).
Proof. split; reflexivity. Qed.

(** ** The numbering of the artifacts *)

(** As long as no save fails after it has counted (lines 125-129) and the
    placeholders can be written, the units of a run get the consecutive
    indices from the counter on, one artifact each, real or placeholder, and
    the counter advances by the number of units. *)
Lemma process_lines_numbering (out : string) (ui : nat -> channel)
  (eps_pref_map : gmap string string) (lines : list string) :
  (forall j, ~ fails_after_count (ui j)) ->
  forall (i : nat) (w : world),
    placeholders_writable out (fs w) ->
    exists w' names,
      process_lines out ui eps_pref_map i lines w = (Ok tt, w')
      /\ eqn_counter w' = eqn_counter w + Z.of_nat (units_of lines)
      /\ artifacts (trace w') = (artifacts (trace w) ++ names)%list
      /\ length names = units_of lines
      /\ forall (j : nat) (name : string),
           names !! j = Some name ->
           name = real_artifact out (eqn_counter w + Z.of_nat j)
           \/ name = placeholder_artifact out (eqn_counter w + Z.of_nat j).
Proof.
  intros Hui. induction lines as [|line later IH]; intros i w Hdisk.
  - exists w, []. cbn. rewrite app_nil_r, Z.add_0_r. by split_and!.
  - cbn [process_lines]. unfold bind, units_of.
    destruct (is_unit line) eqn:Hu.
    + rewrite filter_cons_True by done.
      destruct (process_line_unit_written out (ui i) eps_pref_map i line w Hu
                  Hdisk) as (w1 & t & -> & Ht & _ & Hdisk1 & H).
      destruct (IH (S i) w1 Hdisk1)
        as (w' & names & -> & Hc & Ha & Hlen & Hnames).
      assert (exists name,
                 artifacts t = [name] /\ eqn_counter w1 = eqn_counter w + 1
                 /\ (name = real_artifact out (eqn_counter w)
                     \/ name = placeholder_artifact out (eqn_counter w)))
        as (name & Hat & Hc1 & Hname).
      { destruct H as [(Hat & _ & _ & Hc1 & _)
                      |(n & e & w2 & _ & <- & Hat & _ & _ & Hc1 & _ & Hn)].
        - eexists. split_and!; [done|done|by left].
        - destruct Hn as [Hn|[_ Hlate]]; [|by destruct (Hui i)].
          rewrite Hn in *. eexists. split_and!; [done|done|by right]. }
      exists w', (name :: names). split; [done|].
      rewrite Ha, Ht, artifacts_app, Hat, <- app_assoc, Hc, Hc1.
      cbn [length]. fold (units_of later). rewrite Hlen.
      split_and!; [lia|done|done|].
      intros [|j] nm; cbn.
      * intros [= <-]. by rewrite Z.add_0_r.
      * intros Hj. apply Hnames in Hj. rewrite Hc1 in Hj.
        by replace (eqn_counter w + Z.of_nat (S j))
          with (eqn_counter w + 1 + Z.of_nat j) by lia.
    + rewrite filter_cons_False by (rewrite Hu; done).
      rewrite process_line_skips by done. by apply IH.
Qed.


(** C1: a unit file of one unit whose save dialog shows but refuses the
    path (line 127 raises after line 125 has counted): the run returns, one
    unit was processed, and the only artifact is the placeholder with index 2;
    no artifact carries the index 1. *)
Theorem C1_late_save_failure_leaves_gap :
  units_of (Py.readlines Sample.line_one) = 1%nat
  /\ fails_after_count Sample.edit_fails
  /\ exists w',
      process_mathml_blocks_from_file Sample.out_dir Sample.started
        (λ _, Sample.edit_fails) "mathml.txt" ∅
        (state_at_import Sample.one_unit_disk) = (Ok tt, w')
      /\ artifacts (trace w') = [placeholder_artifact Sample.out_dir 2]
      /\ (real_artifact Sample.out_dir 1 ∉ artifacts (trace w'))
      /\ (placeholder_artifact Sample.out_dir 1 ∉ artifacts (trace w')).
Proof.
  split; [vm_compute; reflexivity|].
  split.
  { unfold fails_after_count, found, ok, raises.
    split_and!; [by eexists..|left; by eexists]. }
  eexists. split; [vm_compute; reflexivity|].
  split; [vm_compute; reflexivity|].
  split; vm_compute; intros H; apply list_elem_of_In in H;
    destruct H as [H|[]]; discriminate H.
Qed.

(** C2: on the same run the counter, set to 1 at the start, stands at 3
    after its single unit: line 125 and line 241 both advanced it. *)
Theorem C2_counter_advanced_twice_for_one_unit :
  units_of (Py.readlines Sample.line_one) = 1%nat
  /\ eqn_counter (state_at_import Sample.one_unit_disk) = 1
  /\ exists w',
      process_mathml_blocks_from_file Sample.out_dir Sample.started
        (λ _, Sample.edit_fails) "mathml.txt" ∅
        (state_at_import Sample.one_unit_disk) = (Ok tt, w')
      /\ eqn_counter w' = 3.
Proof.
  split; [vm_compute; reflexivity|]. split; [reflexivity|].
  eexists. split; [vm_compute; reflexivity|reflexivity].
Qed.

Example report_lines_parsed :
  Preferences.parse_lines ∅ Sample.report_lines !! "Eqn1.eps" = Some "Times"
  /\ Preferences.parse_lines ∅ Sample.report_lines !! "Eqn2.eps" = Some "Euclid"
  /\ Preferences.parse_lines ∅ Sample.report_lines !! "no preference here" = None
  /\ size (Preferences.parse_lines ∅ Sample.report_lines) = 2%nat.
Proof. split_and!; vm_compute; reflexivity. Qed.

Lemma C6_short_lines_skipped_witness :
  (length (Py.split Py.tab ("no preference here" ++ Sample.nl)) < 2)%nat
  /\ path_exists Sample.empty_disk "report.txt" = false
  /\ Preferences.parse_lines ∅ Sample.report_lines
     = Preferences.parse_lines ∅
         ["Eqn1.eps" ++ String Py.tab "Times" ++ Sample.nl;
          "Eqn2.eps" ++ String Py.tab "Euclid" ++ Sample.nl]
  /\ read_eps_preferences "report.txt" (state_at_import Sample.empty_disk)
     = (Ok ∅, mkWorld 1 Sample.empty_disk [EReportMissing "report.txt"]).
Proof.
  assert (length (Py.split Py.tab ("no preference here" ++ Sample.nl)) < 2)%nat
    as Hshort by (vm_compute; lia).
  assert (path_exists Sample.empty_disk "report.txt" = false) as Hmissing
    by (vm_compute; reflexivity).
  destruct (C6_short_lines_skipped_missing_report_empty ∅
              ["Eqn1.eps" ++ String Py.tab "Times" ++ Sample.nl]
              ["Eqn2.eps" ++ String Py.tab "Euclid" ++ Sample.nl]
              ("no preference here" ++ Sample.nl) "report.txt"
              (state_at_import Sample.empty_disk) Hshort Hmissing)
    as (_ & Hlines & Hread & _).
  split; [exact Hshort|]. split; [exact Hmissing|].
  split; [exact Hlines|exact Hread].
Defined.

(** The claim of C6 fails for a report that exists but cannot be read: the
    loader gives no warning and no mapping, it raises. *)
Lemma C6_unreadable_report_raises :
  path_exists Sample.disk_locked_report "report.txt" = true
  /\ files Sample.disk_locked_report !! "report.txt" = Some Unreadable
  /\ read_eps_preferences "report.txt"
       (state_at_import Sample.disk_locked_report)
     = (Raise "cannot open or decode the file",
        state_at_import Sample.disk_locked_report)
  /\ ~ exists w',
         read_eps_preferences "report.txt"
           (state_at_import Sample.disk_locked_report) = (Ok ∅, w').
Proof.
  assert (read_eps_preferences "report.txt"
            (state_at_import Sample.disk_locked_report)
          = (Raise "cannot open or decode the file",
             state_at_import Sample.disk_locked_report)) as H
    by (vm_compute; reflexivity).
  split_and!; [vm_compute; reflexivity|vm_compute; reflexivity|exact H|].
  intros [w' Hw']. rewrite H in Hw'. discriminate Hw'.
Qed.


(** ** Entry point *)



(** A whole run, from the document to the artifact. *)
Example script_one_unit :
  exists w,
    script Sample.env_one Sample.disk_with_doc = (Finished, w)
    /\ artifacts (trace w) = [real_artifact Sample.out_dir 1]
    /\ files (fs w) !! MATHML_TXT_PATH Sample.env_one
       = Some (Readable Sample.line_one)
    /\ eqn_counter w = 2.
Proof. eexists. split_and!; vm_compute; reflexivity. Qed.


(** * Further properties *)

(** ** Extractor: what is not extracted, and how the scan goes on *)

Lemma slength_app (s t : string) :
  String.length (s ++ t) = (String.length s + String.length t)%nat.
Proof.
  induction s as [|c s IH]; [done|]. rewrite sapp_cons. simpl. by rewrite IH.
Qed.

Lemma prefix_app (sub rest : string) : String.prefix sub (sub ++ rest) = true.
Proof.
  induction sub as [|c sub IH]; [by destruct rest|].
  rewrite sapp_cons. simpl. by destruct (ascii_dec c c).
Qed.

Lemma contains_prefix (sub s : string) :
  String.prefix sub s = true -> Py.contains sub s = true.
Proof. intros H. destruct s; cbn [Py.contains]; by rewrite H. Qed.

Lemma contains_app (sub before after : string) :
  Py.contains sub (before ++ sub ++ after) = true.
Proof.
  induction before as [|c before IH].
  - rewrite sapp_nil_l. apply contains_prefix, prefix_app.
  - rewrite sapp_cons. cbn [Py.contains]. rewrite IH. apply orb_true_r.
Qed.

Lemma findall_skips_match (matched rest : string) :
  Extractor.findall_from (matched ++ rest) (String.length matched)
  = Extractor.findall rest.
Proof.
  induction matched as [|c matched IH]; [|by rewrite sapp_cons].
  rewrite sapp_nil_l. by destruct rest.
Qed.

Lemma findall_first (doc : string) (m : string * string)
  (more : list (string * string)) :
  Extractor.findall doc = m :: more ->
  exists before attrs1 attrs2 rest,
    doc = before ++ Extractor.span attrs1 m.1 attrs2 m.2 ++ rest
    /\ more = Extractor.findall rest.
Proof.
  unfold Extractor.findall at 1. induction doc as [|c doc IH]; [done|].
  cbn [Extractor.findall_from].
  destruct (Extractor.match_at (String c doc)) as [[[alt content] rest]|] eqn:E.
  - intros [= <- <-].
    destruct (ExtractorFacts.match_at_Some _ _ _ _ E)
      as (attrs1 & attrs2 & Hdoc & _).
    exists EmptyString, attrs1, attrs2, rest. split; [done|].
    cbn [fst snd]. unfold Extractor.span in Hdoc.
    rewrite !sapp_assoc in Hdoc. rewrite sapp_cons in Hdoc.
    injection Hdoc as -> ->.
    rewrite <- !sapp_assoc. rewrite slength_app.
    replace (String.length _ + String.length rest - String.length rest)%nat
      with (String.length
              (((((((("math" ++ attrs1) ++ Extractor.altimg_eq) ++ alt)
                     ++ Extractor.quote_s) ++ attrs2) ++ ">") ++ content)
                 ++ "</math>")) by lia.
    apply findall_skips_match.
  - intros H. destruct (IH H) as (before & a1 & a2 & rest & -> & Hmore).
    exists (String c before), a1, a2, rest. by rewrite sapp_cons.
Qed.

(** X1: a document in which the opening of a math tag, the altimg attribute
    with its opening quote, or the closing math tag does not occur gives no
    unit at all: equations without an altimg attribute are left out. *)
Theorem X1_nothing_extracted_without_altimg (xml_content : string) :
  Py.contains "<math" xml_content = false
  \/ Py.contains Extractor.altimg_eq xml_content = false
  \/ Py.contains "</math>" xml_content = false ->
  Extractor.blocks_of_text xml_content = [].
Proof.
  intros H. unfold Extractor.blocks_of_text.
  destruct (Extractor.findall xml_content) as [|m more] eqn:E; [done|].
  exfalso. apply findall_first in E as (before & a1 & a2 & rest & -> & _).
  unfold Extractor.span in H.
  assert (forall sub a b,
            before ++ ("<math" ++ a1 ++ Extractor.altimg_eq ++ m.1
                         ++ Extractor.quote_s ++ a2 ++ ">" ++ m.2 ++ "</math>")
                   ++ rest = a ++ sub ++ b ->
            Py.contains sub
              (before ++ ("<math" ++ a1 ++ Extractor.altimg_eq ++ m.1
                            ++ Extractor.quote_s ++ a2 ++ ">" ++ m.2
                            ++ "</math>") ++ rest) = true) as Hin.
  { intros sub a b ->. apply contains_app. }
  destruct H as [H|[H|H]].
  - rewrite (Hin "<math" before
               (a1 ++ Extractor.altimg_eq ++ m.1 ++ Extractor.quote_s ++ a2
                   ++ ">" ++ m.2 ++ "</math>" ++ rest)) in H; [done|].
    by rewrite !sapp_assoc.
  - rewrite (Hin Extractor.altimg_eq (before ++ "<math" ++ a1)
               (m.1 ++ Extractor.quote_s ++ a2 ++ ">" ++ m.2 ++ "</math>"
                    ++ rest)) in H; [done|].
    by rewrite !sapp_assoc.
  - rewrite (Hin "</math>"
               (before ++ "<math" ++ a1 ++ Extractor.altimg_eq ++ m.1
                       ++ Extractor.quote_s ++ a2 ++ ">" ++ m.2) rest) in H;
      [done|].
    by rewrite !sapp_assoc.
Qed.

(** X2: the scan is left to right and matches do not overlap: when a
    document gives at least one unit, the first unit is rebuilt from a span
    of the document, and the remaining units are exactly those of the text
    that follows this span. *)
Theorem X2_units_after_first_span (xml_content : string)
  (unit : string * string) (more : list (string * string)) :
  Extractor.blocks_of_text xml_content = unit :: more ->
  exists before attrs1 attrs2 body after,
    xml_content = before ++ Extractor.span attrs1 unit.2 attrs2 body ++ after
    /\ unit.1 = Extractor.span " " unit.2 EmptyString body
    /\ more = Extractor.blocks_of_text after.
Proof.
  unfold Extractor.blocks_of_text.
  destruct (Extractor.findall xml_content) as [|m ms] eqn:E; [done|].
  cbn [fmap list_fmap]. intros [= <- <-].
  apply findall_first in E as (before & a1 & a2 & rest & -> & ->).
  by exists before, a1, a2, m.2, rest.
Qed.

Lemma X1_nothing_extracted_witness :
  (Py.contains "<math" More.xml_plain = false
   \/ Py.contains Extractor.altimg_eq More.xml_plain = false
   \/ Py.contains "</math>" More.xml_plain = false)
  /\ Extractor.blocks_of_text More.xml_plain = [].
Proof.
  assert (Py.contains "<math" More.xml_plain = false
          \/ Py.contains Extractor.altimg_eq More.xml_plain = false
          \/ Py.contains "</math>" More.xml_plain = false) as H
    by (right; left; vm_compute; reflexivity).
  split; [exact H|]. exact (X1_nothing_extracted_without_altimg _ H).
Defined.

Lemma X2_units_after_first_span_witness :
  Extractor.blocks_of_text More.xml_two
  = More.unit_two_first :: [More.unit_two_second]
  /\ exists before attrs1 attrs2 body after,
      More.xml_two
      = before ++ Extractor.span attrs1 "e1.png" attrs2 body ++ after
      /\ More.unit_two_first.1 = Extractor.span " " "e1.png" EmptyString body
      /\ [More.unit_two_second] = Extractor.blocks_of_text after.
Proof.
  assert (Extractor.blocks_of_text More.xml_two
          = More.unit_two_first :: [More.unit_two_second]) as H
    by (vm_compute; reflexivity).
  split; [exact H|]. exact (X2_units_after_first_span _ _ _ H).
Defined.

(** ** The unit file: written, then read line by line *)




Lemma rstrip_keeps_head (c : ascii) (s : string) :
  Py.isspace c = false -> exists r, Py.rstrip (String c s) = String c r.
Proof.
  intros Hc. cbn [Py.rstrip]. rewrite Hc.
  destruct (Py.rstrip s); by eexists.
Qed.






(** X4: when the search returns a window, that window has MathType in its
    title and the class of the equation window, it is the first such window of
    the first poll that shows one, and every earlier poll was answered and
    showed none. *)
Theorem X4_main_window_is_first_match (polls : list (outcome (list window)))
  (w : window) :
  get_main_window polls = Ok (Some w) ->
  is_main_window w = true
  /\ exists earlier ws later,
      polls = (earlier ++ Ok ws :: later)%list
      /\ List.find is_main_window ws = Some w
      /\ w ∈ ws
      /\ Forall (λ poll, exists ws',
                   poll = Ok ws'
                   /\ Forall (λ p, is_main_window p = false) ws') earlier.
Proof.
  induction polls as [|[ws|e] later IH]; simpl; [done| |done].
  destruct (find is_main_window ws) as [p|] eqn:Hfind.
  - intros [= ->]. pose proof (find_some _ _ Hfind) as [Hin Hw].
    split; [done|]. exists [], ws, later.
    split_and!; [done|done|by apply list_elem_of_In|constructor].
  - intros H. destruct (IH H) as (Hw & earlier & ws' & later' & -> & Hf & Hin & Hall).
    split; [done|]. exists (Ok ws :: earlier), ws', later'.
    split_and!; [done|done|done|]. constructor; [|done].
    exists ws. split; [done|]. apply Forall_forall. intros p Hp.
    apply list_elem_of_In in Hp.
    by apply (find_none _ _ Hfind).
Qed.

Lemma X4_main_window_is_first_match_witness :
  get_main_window [Ok [Sample.plain_window]; Ok [Sample.error_popup;
                                                 Sample.main_window]]
  = Ok (Some Sample.main_window)
  /\ is_main_window Sample.main_window = true.
Proof.
  assert (get_main_window
            [Ok [Sample.plain_window];
             Ok [Sample.error_popup; Sample.main_window]]
          = Ok (Some Sample.main_window)) as H by reflexivity.
  split; [exact H|].
  exact (proj1 (X4_main_window_is_first_match _ _ H)).
Defined.

(** ** Failure recovery and the main window *)

Lemma prefix_lower (sub s : string) :
  String.prefix sub s = true ->
  String.prefix (Py.lower sub) (Py.lower s) = true.
Proof.
  revert s. induction sub as [|a sub IH]; intros s; [by destruct s|].
  destruct s as [|b s]; [done|]. cbn [String.prefix Py.lower].
  destruct (ascii_dec a b) as [->|]; [|done].
  intros H. destruct (ascii_dec (Py.lower_char b) (Py.lower_char b)); [|done].
  by apply IH.
Qed.

Lemma contains_lower (sub s : string) :
  Py.contains sub s = true -> Py.contains (Py.lower sub) (Py.lower s) = true.
Proof.
  induction s as [|c s IH]; cbn [Py.contains Py.lower].
  - rewrite orb_false_r. intros H.
    apply (prefix_lower sub EmptyString) in H. cbn [Py.lower] in H.
    by rewrite H.
  - intros [H|H]%orb_true_iff.
    + apply (prefix_lower sub (String c s)) in H. cbn [Py.lower] in H.
      by rewrite H.
    + rewrite (IH H). apply orb_true_r.
Qed.

Lemma prefix_trans (a b s : string) :
  String.prefix a b = true -> String.prefix b s = true ->
  String.prefix a s = true.
Proof.
  revert b s. induction a as [|x a IH]; intros b s; [by destruct s|].
  destruct b as [|y b]; [done|]. destruct s as [|z s]; [done|].
  cbn [String.prefix].
  destruct (ascii_dec x y) as [->|]; [|done].
  destruct (ascii_dec y z) as [->|]; [|done]. apply IH.
Qed.

Lemma contains_shorter (a b s : string) :
  String.prefix a b = true -> Py.contains b s = true -> Py.contains a s = true.
Proof.
  intros Hab. induction s as [|c s IH]; cbn [Py.contains].
  - rewrite !orb_false_r. apply prefix_trans, Hab.
  - intros [H|H]%orb_true_iff.
    + by rewrite (prefix_trans _ _ _ Hab H).
    + rewrite (IH H). apply orb_true_r.
Qed.

(** X5: every window that the search takes for the main window of MathType
    is also taken for a popup by the failure recovery, because its title
    contains the keyword math; when it takes focus and escape, the recovery
    counts it as a dismissed popup. *)
Theorem X5_main_window_taken_for_popup (w : window) :
  is_main_window w = true ->
  looks_like_popup (window_text w) = true
  /\ (can_dismiss w = true -> dismissable w = true).
Proof.
  intros [H _]%andb_true_iff.
  assert (looks_like_popup (window_text w) = true) as Hp.
  { apply contains_lower in H.
    apply (contains_shorter "math") in H; [|done].
    unfold looks_like_popup, popup_keywords. cbn [existsb].
    rewrite H. by rewrite orb_true_r. }
  split; [done|]. intros Hd. unfold dismissable. by rewrite Hp, Hd.
Qed.

Lemma X5_main_window_taken_for_popup_witness :
  is_main_window Sample.main_window = true
  /\ looks_like_popup (window_text Sample.main_window) = true.
Proof.
  assert (is_main_window Sample.main_window = true) as H by reflexivity.
  split; [exact H|]. exact (proj1 (X5_main_window_taken_for_popup _ H)).
Defined.

(** ** Artifact names *)


Lemma numeric_part_unique (a b : string) (c1 c2 : ascii) (s1 s2 : string) :
  all_numeric a -> all_numeric b ->
  numeric c1 = false -> numeric c2 = false ->
  a ++ String c1 s1 = b ++ String c2 s2 -> a = b.
Proof.
  intros Ha Hb H1 H2. revert b Hb.
  induction a as [|x a IH]; intros [|y b] Hb; rewrite ?sapp_nil_l, ?sapp_cons.
  - done.
  - intros [= -> _]. destruct Hb as [Hy _]. congruence.
  - intros [= -> _]. destruct Ha as [Hx _]. congruence.
  - intros [= -> H]. f_equal. destruct Ha, Hb. by apply IH.
Qed.

Lemma artifact_name_index (out : string) (u v : bool * Z) :
  artifact_name out u = artifact_name out v -> u.2 = v.2.
Proof.
  assert (forall (n m : Z) (c1 c2 : ascii) (s1 s2 : string),
             numeric c1 = false -> numeric c2 = false ->
             in_output_dir out ("Eqn" ++ pretty n ++ String c1 s1)
             = in_output_dir out ("Eqn" ++ pretty m ++ String c2 s2) ->
             n = m) as Hinj.
  { intros n m c1 c2 s1 s2 H1 H2 H. unfold in_output_dir in H.
    apply (inj (String.app out)) in H. apply (inj (String.app "\")) in H.
    apply (inj (String.app "Eqn")) in H.
    apply numeric_part_unique in H;
      [|apply pretty_Z_numeric|apply pretty_Z_numeric|done..].
    by apply (inj pretty). }
  destruct u as [[] n], v as [[] m];
    unfold artifact_name, placeholder_artifact, real_artifact, failed_name_of,
      eps_name_of; cbn [fst snd]; intros H;
    by apply Hinj in H.
Qed.

(** ** Every unit gets one artifact, and no name twice *)






Lemma process_line_index (out : string) (ch : channel)
  (eps_pref_map : gmap string string) (i : nat) (line : string) (w : world) :
  is_unit line = true ->
  exists r w' units,
    process_line out ch eps_pref_map i line w = (r, w')
    /\ artifacts (trace w')
       = (artifacts (trace w) ++ (artifact_name out <$> units))%list
    /\ StronglySorted (λ u v : bool * Z, u.2 < v.2) units
    /\ Forall (λ u : bool * Z, eqn_counter w <= u.2 < eqn_counter w') units
    /\ eqn_counter w <= eqn_counter w'.
Proof.
  intros Hu.
  destruct (process_line_unit out ch eps_pref_map i line w Hu)
    as (r & w' & t & Hline & Ht & _ & H).
  exists r, w'. rewrite Ht, artifacts_app.
  destruct H as [(_ & Ha & _ & _ & Hc & _)
                |(n & e & w1 & _ & _ & _ & Hn & H)].
  - exists [(false, eqn_counter w)]. rewrite Ha.
    split_and!; [done|done|repeat constructor|
                 repeat constructor; simpl; lia|lia].
  - destruct H as [(_ & _ & _ & Ha & _ & Hc)|(e' & _ & _ & _ & Ha & _ & Hc)].
    + exists [(true, n)]. rewrite Ha.
      split_and!; [done|done|repeat constructor|
                   repeat constructor; simpl; lia|lia].
    + exists []. rewrite Ha.
      split_and!; [done|done|constructor|constructor|lia].
Qed.

Lemma sorted_app (us vs : list (bool * Z)) (c : Z) :
  StronglySorted (λ u v : bool * Z, u.2 < v.2) us ->
  StronglySorted (λ u v : bool * Z, u.2 < v.2) vs ->
  Forall (λ u : bool * Z, u.2 < c) us ->
  Forall (λ v : bool * Z, c <= v.2) vs ->
  StronglySorted (λ u v : bool * Z, u.2 < v.2) (us ++ vs).
Proof.
  intros Hus Hvs Hlow Hhigh. induction Hus as [|u us _ IH Hlt]; [done|].
  apply Forall_cons in Hlow as [Hu Hlow]. cbn [app].
  constructor; [by apply IH|]. apply Forall_app. split; [done|].
  eapply Forall_impl; [exact Hhigh|]. intros v Hv. simpl in *. lia.
Qed.

(** X7: whether the loop returns or is left by an error of the handler's
    write, the indices of the artifacts of the run strictly increase, from
    the counter at the start on and below the counter at the end, also when
    units fail after the save has counted; hence no artifact name comes
    twice and no artifact of the run is overwritten by a later one. *)
Theorem X7_artifact_names_never_repeat (out : string) (ui : nat -> channel)
  (eps_pref_map : gmap string string) (lines : list string) (i : nat)
  (w : world) :
  exists r w' units,
    process_lines out ui eps_pref_map i lines w = (r, w')
    /\ artifacts (trace w')
       = (artifacts (trace w) ++ (artifact_name out <$> units))%list
    /\ StronglySorted (λ u v : bool * Z, u.2 < v.2) units
    /\ Forall (λ u : bool * Z, eqn_counter w <= u.2 < eqn_counter w') units
    /\ eqn_counter w <= eqn_counter w'
    /\ NoDup (artifact_name out <$> units).
Proof.
  assert (exists r w' units,
             process_lines out ui eps_pref_map i lines w = (r, w')
             /\ artifacts (trace w')
                = (artifacts (trace w) ++ (artifact_name out <$> units))%list
             /\ StronglySorted (λ u v : bool * Z, u.2 < v.2) units
             /\ Forall (λ u : bool * Z,
                          eqn_counter w <= u.2 < eqn_counter w') units
             /\ eqn_counter w <= eqn_counter w')
    as (r & w' & units & Hrun & Ha & Hsorted & Hrange & Hle).
  { revert i w. induction lines as [|line later IH]; intros i w.
    - exists (Ok tt), w, []. rewrite app_nil_r.
      split_and!; try done; constructor.
    - cbn [process_lines]. unfold bind. destruct (is_unit line) eqn:Hu.
      + destruct (process_line_index out (ui i) eps_pref_map i line w Hu)
          as (r1 & w1 & us & -> & Ha1 & Hs1 & Hu1 & Hle1).
        destruct r1 as [[]|e1].
        * destruct (IH (S i) w1) as (r & w' & units & -> & Ha & Hs & Hr & Hle).
          exists r, w', (us ++ units)%list. split; [done|].
          split; [by rewrite Ha, Ha1, fmap_app, <- app_assoc|].
          split_and!.
          -- apply (sorted_app us units (eqn_counter w1)); [done|done| |].
             ++ eapply Forall_impl; [exact Hu1|]. intros v Hv. simpl in *. lia.
             ++ eapply Forall_impl; [exact Hr|]. intros v Hv. simpl in *. lia.
          -- apply Forall_app. split.
             ++ eapply Forall_impl; [exact Hu1|]. intros v Hv. simpl in *. lia.
             ++ eapply Forall_impl; [exact Hr|]. intros v Hv. simpl in *. lia.
          -- lia.
        * by exists (Raise e1), w1, us.
      + rewrite process_line_skips by done. apply IH. }
  exists r, w', units. split_and!; try done.
  clear Hrun Ha Hrange Hle.
  induction Hsorted as [|u units _ IH Hlt]; [constructor|].
  cbn [fmap list_fmap]. constructor; [|done].
  intros (v & Hname & Hv)%list_elem_of_fmap.
  apply artifact_name_index in Hname.
  rewrite Forall_forall in Hlt. specialize (Hlt v Hv). lia.
Qed.
Lemma keeps_get_fs : keeps get_fs.
Proof. intros w. exists []. by rewrite app_nil_r. Qed.

Lemma writes_placeholders_only_keeps {A} (out : string) (m : M A) :
  keeps m -> writes_placeholders_only out m.
Proof.
  intros Hm w. destruct (Hm w) as (t & _ & _ & -> & _). split; [done|]. by left.
Qed.

Lemma writes_placeholders_only_bind {A B} (out : string) (m : M A)
  (f : A -> M B) :
  writes_placeholders_only out m ->
  (forall a, writes_placeholders_only out (f a)) ->
  writes_placeholders_only out (bind m f).
Proof.
  intros Hm Hf w. unfold bind. destruct (Hm w) as [Hd Hp].
  destruct (m w) as [[a|e] w1]; simpl in *; [|done].
  destruct (Hf a w1) as [Hd' Hp']. split; [congruence|].
  intros p. destruct (Hp' p) as [->|]; [apply Hp|by right].
Qed.


Lemma writes_placeholders_only_line (out : string) (ch : channel)
  (eps_pref_map : gmap string string) (i : nat) (line : string) :
  writes_placeholders_only out (process_line out ch eps_pref_map i line).
Proof.
  intros w. destruct (is_unit line) eqn:Hu.
  - destruct (process_line_unit out ch eps_pref_map i line w Hu)
      as (r & w' & t & -> & _ & _ & H). cbn [snd].
    destruct H as [(_ & _ & _ & _ & _ & -> & _)
                  |(n & e & w1 & _ & _ & _ & _ & H)].
    + split; [done|]. by left.
    + destruct H as [(_ & _ & -> & _)|(e' & _ & _ & -> & _)].
      * split; [done|]. intros p. unfold with_file. cbn [files].
        destruct (decide (placeholder_artifact out n = p)) as [<-|Hne].
        -- right. rewrite lookup_insert_eq. eauto.
        -- left. by rewrite lookup_insert_ne.
      * split; [done|]. by left.
  - rewrite process_line_skips by done. split; [done|]. by left.
Qed.

Lemma writes_placeholders_only_lines (out : string) (ui : nat -> channel)
  (eps_pref_map : gmap string string) (lines : list string) (i : nat) :
  writes_placeholders_only out (process_lines out ui eps_pref_map i lines).
Proof.
  revert i. induction lines as [|line later IH]; intros i.
  - apply writes_placeholders_only_keeps, keeps_ret.
  - cbn [process_lines]. apply writes_placeholders_only_bind.
    + apply writes_placeholders_only_line.
    + intros _. apply IH.
Qed.

(** X8: the only files a run of the orchestrator writes are empty files at
    placeholder names of the output directory: any other path holds after the
    run what it held before (so the unit file, the report and the document
    are left as they were), and no directory is made. *)
Theorem X8_run_writes_placeholders_only (out : string) (st : startup)
  (ui : nat -> channel) (txt_path : string)
  (eps_pref_map : gmap string string) (w : world) (p : string) :
  dirs (fs (process_mathml_blocks_from_file out st ui txt_path
              eps_pref_map w).2) = dirs (fs w)
  /\ (files (fs (process_mathml_blocks_from_file out st ui txt_path
                   eps_pref_map w).2) !! p = files (fs w) !! p
      \/ ((exists n, p = placeholder_artifact out n)
          /\ files (fs (process_mathml_blocks_from_file out st ui txt_path
                          eps_pref_map w).2) !! p
             = Some (Readable EmptyString))).
Proof.
  assert (writes_placeholders_only out
            (process_mathml_blocks_from_file out st ui txt_path eps_pref_map))
    as H.
  { unfold process_mathml_blocks_from_file, connect_or_start_mathtype.
    apply writes_placeholders_only_bind;
      [apply writes_placeholders_only_keeps; frames|intros _].
    apply writes_placeholders_only_bind;
      [apply writes_placeholders_only_keeps; frames|intros _].
    apply writes_placeholders_only_bind;
      [apply writes_placeholders_only_keeps; frames|intros main_win].
    apply writes_placeholders_only_bind;
      [apply writes_placeholders_only_keeps; frames|intros _].
    apply writes_placeholders_only_bind;
      [apply writes_placeholders_only_keeps, keeps_get_fs|intros f].
    apply writes_placeholders_only_bind;
      [apply writes_placeholders_only_keeps; frames|intros text].
    apply writes_placeholders_only_bind;
      [apply writes_placeholders_only_lines|intros _].
    apply writes_placeholders_only_keeps. frames. }
  destruct (H w) as [Hd Hp]. split; [done|apply Hp].
Qed.

(** ** When the orchestrator returns *)



Section EmitsOnly.
Context (P : event -> bool) {A B : Type}.

Lemma emits_only_pure (m : M A) :
  (forall w, trace (m w).2 = trace w) -> emits_only P m.
Proof. intros H w. exists []. by rewrite app_nil_r, H. Qed.

Lemma emits_only_bind (m : M A) (f : A -> M B) :
  emits_only P m -> (forall a, emits_only P (f a)) -> emits_only P (bind m f).
Proof.
  intros Hm Hf w. unfold bind. destruct (Hm w) as (t1 & Ht1 & Hp1).
  destruct (m w) as [[a|e] w1]; simpl in *; [|by exists t1].
  destruct (Hf a w1) as (t2 & Ht2 & Hp2).
  exists (t1 ++ t2)%list. rewrite Ht2, Ht1, app_assoc.
  split; [done|by apply Forall_app].
Qed.

Lemma emits_only_try (m : M A) (h : string -> M A) :
  emits_only P m -> (forall e, emits_only P (h e)) ->
  emits_only P (try_except m h).
Proof.
  intros Hm Hh w. unfold try_except. destruct (Hm w) as (t1 & Ht1 & Hp1).
  destruct (m w) as [[a|e] w1]; simpl in *; [by exists t1|].
  destruct (Hh e w1) as (t2 & Ht2 & Hp2).
  exists (t1 ++ t2)%list. rewrite Ht2, Ht1, app_assoc.
  split; [done|by apply Forall_app].
Qed.

End EmitsOnly.

Lemma emits_only_emit (P : event -> bool) (e : event) :
  P e = true -> emits_only P (emit e).
Proof. intros H w. exists [e]. split; [done|by constructor]. Qed.

Ltac only_events :=
  repeat first
    [ progress intros
    | apply emits_only_bind | apply emits_only_try
    | apply emits_only_emit; reflexivity
    | apply emits_only_pure; reflexivity
    | match goal with
      | |- emits_only _ (match ?x with _ => _ end) => destruct x
      end
    | match goal with
      | |- emits_only _ (if ?x then _ else _) => destruct x
      end ].

Lemma no_preference_in_dismiss_loop (ws : list window) :
  emits_only no_preference_event (dismiss_loop ws).
Proof. induction ws as [|p ws IH]; simpl; only_events; apply IH. Qed.

Lemma no_preference_in_line (out : string) (ch : channel)
  (eps_pref_map : gmap string string) (i : nat) (line : string) :
  (forall k v, eps_pref_map !! k = Some v -> Py.truthy v = false) ->
  emits_only no_preference_event (process_line out ch eps_pref_map i line).
Proof.
  intros Hmap.
  unfold process_line, unit_body, unit_failed, paste_mathml_to_mathtype,
    save_as_eps, close_current_window, dismiss_error_popup.
  destruct (Py.truthy (Py.strip line)); [|only_events].
  apply emits_only_bind; [only_events|intros _].
  apply emits_only_try.
  - apply emits_only_bind; [only_events|intros _].
    apply emits_only_bind; [only_events|intros _].
    apply emits_only_bind; [only_events|intros n].
    apply emits_only_bind; [|only_events].
    destruct (eps_pref_map !! eps_name_of n) as [v|] eqn:Hv; [|only_events].
    rewrite (Hmap _ _ Hv). only_events.
  - intros e. only_events. apply no_preference_in_dismiss_loop.
Qed.

Lemma no_preference_in_lines (out : string) (ui : nat -> channel)
  (eps_pref_map : gmap string string) (lines : list string) (i : nat) :
  (forall k v, eps_pref_map !! k = Some v -> Py.truthy v = false) ->
  emits_only no_preference_event (process_lines out ui eps_pref_map i lines).
Proof.
  intros Hmap. revert i. induction lines as [|line later IH]; intros i.
  - only_events.
  - cbn [process_lines]. apply emits_only_bind.
    + by apply no_preference_in_line.
    + intros _. apply IH.
Qed.

(** X10: with a preference mapping that is empty, or whose entries are all
    empty names, the preference step is never taken: the whole run, success
    or failure of its units alike, logs none of the messages of
    apply_preferences (no window searched, no menu invoked for a
    preference). *)
Theorem X10_no_preference_step_without_entries (out : string) (st : startup)
  (ui : nat -> channel) (txt_path : string)
  (eps_pref_map : gmap string string) (w : world) :
  (forall k v, eps_pref_map !! k = Some v -> Py.truthy v = false) ->
  exists t,
    trace (process_mathml_blocks_from_file out st ui txt_path
             eps_pref_map w).2 = (trace w ++ t)%list
    /\ Forall (λ e, is_preference_event e = false) t.
Proof.
  intros Hmap.
  assert (emits_only no_preference_event
            (process_mathml_blocks_from_file out st ui txt_path eps_pref_map))
    as H.
  { unfold process_mathml_blocks_from_file, connect_or_start_mathtype.
    apply emits_only_bind; [only_events|intros _].
    apply emits_only_bind; [only_events|intros _].
    apply emits_only_bind; [only_events|intros main_win].
    apply emits_only_bind; [only_events|intros _].
    apply emits_only_bind; [only_events|intros f].
    apply emits_only_bind; [only_events|intros text].
    apply emits_only_bind; [by apply no_preference_in_lines|only_events]. }
  destruct (H w) as (t & Ht & Hp). exists t. split; [done|].
  eapply Forall_impl; [exact Hp|]. intros e He.
  unfold no_preference_event in He. by destruct (is_preference_event e).
Qed.

Lemma X10_no_preference_step_witness :
  (forall k v, (∅ : gmap string string) !! k = Some v -> Py.truthy v = false)
  /\ exists t,
      trace (process_mathml_blocks_from_file Sample.out_dir Sample.started
               Sample.second_times_out "mathml.txt" ∅
               (state_at_import Sample.three_units_disk)).2 = ([] ++ t)%list
      /\ Forall (λ e, is_preference_event e = false) t.
Proof.
  assert (forall k v,
             (∅ : gmap string string) !! k = Some v -> Py.truthy v = false)
    as H by (intros k v Hk; rewrite lookup_empty in Hk; discriminate Hk).
  split; [exact H|].
  exact (X10_no_preference_step_without_entries Sample.out_dir Sample.started
           Sample.second_times_out "mathml.txt" ∅
           (state_at_import Sample.three_units_disk) H).
Defined.

(** ** Failures that do not fail the unit *)

Ltac run_steps :=
  unfold unit_body, paste_mathml_to_mathtype, apply_preferences, save_as_eps,
    close_current_window, bind, call, try_except, get_counter, set_counter,
    emit, ret, raise;
  repeat first
    [ progress cbn [eqn_counter fs trace]
    | match goal with
      | H : ?x = _ |- context [?x] => rewrite H
      end
    | match goal with
      | |- context [if ?b then _ else _] => is_var b; destruct b
      end
    | match goal with
      | |- context [match ?u with tt => _ end] => is_var u; destruct u
      end ].

Lemma dismissals_one (e : event) :
  dismissals [e] = (if is_dismissal e then 1 else 0)%nat.
Proof. by destruct e. Qed.

(** X11: when the preference menu raises for a unit that has a preference,
    the failure is logged inside apply_preferences and the unit goes on: with
    every other step succeeding, the unit is saved under its real name, no
    placeholder is written and the popup dismissal is not called. *)
Theorem X11_menu_failure_keeps_real_artifact (out : string) (ch : channel)
  (eps_pref_map : gmap string string) (i : nat) (line name : string)
  (w : world) :
  is_unit line = true ->
  eps_pref_map !! eps_name_of (eqn_counter w) = Some name ->
  Py.truthy name = true ->
  only_menu_fails ch ->
  exists w' e,
    process_line out ch eps_pref_map i line w = (Ok tt, w')
    /\ pref_menu ch = Raise e
    /\ EPrefFailed name e ∈ trace w'
    /\ artifacts (trace w')
       = (artifacts (trace w) ++ [real_artifact out (eqn_counter w)])%list
    /\ dismissals (trace w') = dismissals (trace w)
    /\ eqn_counter w' = eqn_counter w + 1.
Proof.
  intros Hu Hmap Htrue Hch. unfold is_unit in Hu.
  unfold only_menu_fails, saves_and_closes in Hch. open_channel.
  unfold process_line. rewrite Hu.
  unfold bind at 1, emit at 1, try_except.
  run_steps;
    (eexists _, _; split; [reflexivity|]; cbn [trace eqn_counter];
     split; [reflexivity|];
     rewrite !artifacts_app, !dismissals_app;
     split_and!;
       [rewrite !elem_of_app, !list_elem_of_singleton; auto
       |by rewrite <- !app_assoc
       |rewrite !dismissals_one; cbn [is_dismissal]; lia
       |done]).
Qed.

Lemma X11_menu_failure_witness :
  is_unit Sample.line_one = true
  /\ More.prefs_one !! eps_name_of 1 = Some "Times"
  /\ only_menu_fails More.menu_fails
  /\ exists w',
      process_line Sample.out_dir More.menu_fails More.prefs_one 1
        Sample.line_one (state_at_import Sample.empty_disk) = (Ok tt, w')
      /\ EPrefFailed "Times" "no such menu item" ∈ trace w'
      /\ artifacts (trace w') = [real_artifact Sample.out_dir 1].
Proof.
  assert (is_unit Sample.line_one = true) as Hu by (vm_compute; reflexivity).
  assert (More.prefs_one !! eps_name_of 1 = Some "Times") as Hmap
    by (vm_compute; reflexivity).
  assert (only_menu_fails More.menu_fails) as Hch.
  { unfold only_menu_fails, saves_and_closes. sample_channel. }
  split; [exact Hu|]. split; [exact Hmap|]. split; [exact Hch|].
  destruct (X11_menu_failure_keeps_real_artifact Sample.out_dir More.menu_fails
              More.prefs_one 1 Sample.line_one "Times"
              (state_at_import Sample.empty_disk) Hu Hmap eq_refl Hch)
    as (w' & e & Hline & He & Hin & Ha & _).
  exists w'. split; [exact Hline|]. split; [|exact Ha].
  assert (e = "no such menu item") as <- by (cbn in He; congruence).
  exact Hin.
Defined.

(** X12: once the save dialog has taken the path and the click, whatever
    happens with the overwrite confirmation (none shows, it is accepted, or
    looking for it or clicking it raises), save_as_eps returns the name made
    from the counter, reports the artifact as saved and leaves the counter one
    higher. *)
Theorem X12_confirmation_never_fails_the_save (out : string) (ch : channel)
  (w : world) :
  found (save_polls ch) -> ok (save_menu ch) -> ok (save_dlg_wait ch) ->
  ok (save_set_text ch) -> ok (save_click ch) ->
  save_as_eps out ch w
  = (Ok (eps_name_of (eqn_counter w)),
     mkWorld (eqn_counter w + 1) (fs w)
       (trace w ++ [ESavedEps (real_artifact out (eqn_counter w))])).
Proof.
  intros Hw Hmenu Hwait Htext Hclick. open_channel.
  unfold save_as_eps, bind, call, try_except, get_counter, set_counter, emit,
    ret.
  rewrite Hw, Hmenu, Hwait. cbn [eqn_counter fs trace].
  rewrite Htext, Hclick.
  destruct (confirm_exists ch) as [[|]|e1]; [|done..].
  by destruct (confirm_yes ch) as [[]|e2].
Qed.

Lemma X12_confirmation_witness :
  found (save_polls More.confirm_fails)
  /\ save_as_eps Sample.out_dir More.confirm_fails
       (state_at_import Sample.empty_disk)
     = (Ok "Eqn1.eps",
        mkWorld 2 Sample.empty_disk
          [ESavedEps (real_artifact Sample.out_dir 1)]).
Proof.
  assert (found (save_polls More.confirm_fails)) as Hw by (by eexists).
  split; [exact Hw|].
  exact (X12_confirmation_never_fails_the_save Sample.out_dir More.confirm_fails
           (state_at_import Sample.empty_disk) Hw
           (ex_intro _ tt eq_refl) (ex_intro _ tt eq_refl)
           (ex_intro _ tt eq_refl) (ex_intro _ tt eq_refl)).
Defined.

(** ** The numbering when no save fails after counting *)


(** ** Numbering without late failures *)





(** ** A whole run on which every step succeeds *)





(** X15: a document path that exists but cannot be opened or decoded (or
    that names a directory) passes the existence check and then makes the
    extraction raise: the script ends with an uncaught exception, status 1,
    without any of its messages, before the unit file is written and before
    MathType is touched. *)
Theorem X15_unreadable_document_is_uncaught (env : environment)
  (disk : filesystem) (e : string) :
  files disk !! OUTPUT_DIR env = None ->
  pyperclip_installed env = true ->
  path_exists (after_line_16 env disk) (XML_FILE env) = true ->
  path_exists (after_line_16 env disk) MATHTYPE_PATH = true ->
  read_text (after_line_16 env disk) (XML_FILE env) = Raise e ->
  script env disk
  = (Uncaught e, mkWorld 1 (after_line_16 env disk) [])
  /\ exit_status (script env disk).1 = 1.
Proof.
  intros Hdir Hpy Hxml Hexe Hread.
  assert (script env disk
          = (Uncaught e, mkWorld 1 (after_line_16 env disk) [])) as Hrun.
  { unfold script, makedirs. rewrite Hdir. fold (after_line_16 env disk).
    unfold entry_point. rewrite Hpy. cbn [negb].
    unfold bind at 1, get_fs at 1, state_at_import. cbn [fs].
    rewrite Hxml, Hexe. cbn [negb]. unfold convert.
    unfold bind at 1, get_fs at 1. cbn [fs].
    unfold bind at 1, call at 1, Extractor.extract_mathml_blocks.
    by rewrite Hread. }
  by rewrite Hrun.
Qed.

Lemma X15_unreadable_document_witness :
  read_text (after_line_16 Sample.env_one More.disk_locked_doc)
    (XML_FILE Sample.env_one) = Raise "cannot open or decode the file"
  /\ script Sample.env_one More.disk_locked_doc
     = (Uncaught "cannot open or decode the file",
        mkWorld 1 (after_line_16 Sample.env_one More.disk_locked_doc) []).
Proof.
  assert (read_text (after_line_16 Sample.env_one More.disk_locked_doc)
            (XML_FILE Sample.env_one)
          = Raise "cannot open or decode the file") as Hread
    by (vm_compute; reflexivity).
  split; [exact Hread|].
  refine (proj1 (X15_unreadable_document_is_uncaught Sample.env_one
                   More.disk_locked_doc _ _ eq_refl _ _ Hread));
    vm_compute; reflexivity.
Defined.

(** ** The entries of the preference mapping *)

Lemma lstrip_fixed (s : string) :
  match s with String c _ => Py.isspace c = false | EmptyString => True end ->
  Py.lstrip s = s.
Proof. destruct s as [|c s]; [done|]. cbn. by intros ->. Qed.

Lemma lstrip_head (s : string) :
  match Py.lstrip s with
  | String c _ => Py.isspace c = false
  | EmptyString => True
  end.
Proof.
  induction s as [|c s IH]; [done|]. cbn.
  by destruct (Py.isspace c) eqn:Hc.
Qed.

Lemma rstrip_head (s : string) :
  match s with String c _ => Py.isspace c = false | EmptyString => True end ->
  match Py.rstrip s with
  | String c _ => Py.isspace c = false
  | EmptyString => True
  end.
Proof.
  destruct s as [|c s]; [done|]. intros Hc.
  by destruct (rstrip_keeps_head c s Hc) as [r ->].
Qed.

Lemma rstrip_after (c d : ascii) (s r : string) :
  Py.rstrip s = String d r -> Py.rstrip (String c s) = String c (String d r).
Proof. intros H. cbn [Py.rstrip]. by rewrite H. Qed.

Lemma rstrip_idempotent (s : string) : Py.rstrip (Py.rstrip s) = Py.rstrip s.
Proof.
  induction s as [|c s IH]; [done|]. cbn [Py.rstrip].
  destruct (Py.rstrip s) as [|d r] eqn:Hr.
  - destruct (Py.isspace c) eqn:Hc; [done|]. cbn. by rewrite Hc.
  - by apply rstrip_after.
Qed.

Lemma strip_idempotent (s : string) : Py.strip (Py.strip s) = Py.strip s.
Proof.
  unfold Py.strip.
  rewrite (lstrip_fixed (Py.rstrip (Py.lstrip s)))
    by apply rstrip_head, lstrip_head.
  apply rstrip_idempotent.
Qed.

Lemma parse_line_entry (mapping : gmap string string) (line : string) :
  Preferences.parse_line mapping line
  = match entry_of line with
    | Some (k, v) => <[k := v]> mapping
    | None => mapping
    end.
Proof.
  unfold Preferences.parse_line, entry_of.
  by destruct (Py.split Py.tab (Py.strip line)) as [|p0 [|p1 ps]].
Qed.

Lemma entry_of_stripped (line k v : string) :
  entry_of line = Some (k, v) -> Py.strip k = k /\ Py.strip v = v.
Proof.
  unfold entry_of.
  destruct (Py.split Py.tab (Py.strip line)) as [|p0 [|p1 ps]]; [done..|].
  intros [= <- <-]. by rewrite !strip_idempotent.
Qed.

Lemma parse_lines_origin (mapping : gmap string string)
  (lines : list string) (k v : string) :
  Preferences.parse_lines mapping lines !! k = Some v ->
  mapping !! k = Some v
  \/ exists line, line ∈ lines /\ entry_of line = Some (k, v).
Proof.
  unfold Preferences.parse_lines. revert mapping.
  induction lines as [|line later IH]; intros mapping; cbn [foldl]; [by left|].
  intros H. apply IH in H as [H|(l & Hl & He)].
  - rewrite parse_line_entry in H.
    destruct (entry_of line) as [[k' v']|] eqn:E; [|by left].
    destruct (decide (k' = k)) as [->|Hne].
    + rewrite lookup_insert_eq in H. injection H as ->.
      right. exists line. split; [left|done].
    + rewrite lookup_insert_ne in H by done. by left.
  - right. exists l. split; [by right|done].
Qed.

(** X16: every entry of the mapping the loader builds comes from a line of
    the report that has at least two tab-delimited fields, and its key and
    its value are the first two fields with surrounding white space removed;
    so a key or a value never starts or ends with white space. *)
Theorem X16_entries_come_trimmed_from_lines (lines : list string)
  (k v : string) :
  Preferences.parse_lines ∅ lines !! k = Some v ->
  (exists line, line ∈ lines /\ entry_of line = Some (k, v))
  /\ Py.strip k = k /\ Py.strip v = v.
Proof.
  intros H. apply parse_lines_origin in H as [H|(line & Hin & He)].
  - by rewrite lookup_empty in H.
  - split; [by exists line|]. by apply (entry_of_stripped line).
Qed.

Lemma parse_lines_other_keys (mapping : gmap string string)
  (lines : list string) (k : string) :
  (forall line v, line ∈ lines -> entry_of line <> Some (k, v)) ->
  Preferences.parse_lines mapping lines !! k = mapping !! k.
Proof.
  unfold Preferences.parse_lines. revert mapping.
  induction lines as [|line later IH]; intros mapping Hk; cbn [foldl]; [done|].
  rewrite IH by (intros l v Hl; apply Hk; by right).
  rewrite parse_line_entry.
  destruct (entry_of line) as [[k' v']|] eqn:E; [|done].
  apply lookup_insert_ne. intros ->. by apply (Hk line v'); [left|].
Qed.

(** X17: when a file name occurs on several lines of the report, the last
    of them decides: the mapping gives a name the preference of the last line
    that carries this name as its first field, whatever earlier lines and
    lines for other names say. *)
Theorem X17_last_line_for_a_name_wins (before after : list string)
  (line k v : string) :
  entry_of line = Some (k, v) ->
  (forall l v', l ∈ after -> entry_of l <> Some (k, v')) ->
  Preferences.parse_lines ∅ (before ++ line :: after) !! k = Some v.
Proof.
  intros He Hafter. unfold Preferences.parse_lines.
  rewrite foldl_app. cbn [foldl].
  fold (Preferences.parse_lines
          (Preferences.parse_line (foldl Preferences.parse_line ∅ before) line)
          after).
  rewrite parse_lines_other_keys by done.
  rewrite parse_line_entry, He. apply lookup_insert_eq.
Qed.

Lemma X16_entries_come_trimmed_witness :
  Preferences.parse_lines ∅ More.report_twice !! "Eqn1.eps" = Some "Euclid"
  /\ Py.strip "Euclid" = "Euclid".
Proof.
  assert (Preferences.parse_lines ∅ More.report_twice !! "Eqn1.eps"
          = Some "Euclid") as H by (vm_compute; reflexivity).
  split; [exact H|].
  exact (proj2 (proj2 (X16_entries_come_trimmed_from_lines _ _ _ H))).
Defined.

Lemma X17_last_line_wins_witness :
  entry_of ("  Eqn1.eps " ++ String Py.tab " Euclid  " ++ String Py.tab "ignored"
              ++ Sample.nl) = Some ("Eqn1.eps", "Euclid")
  /\ Preferences.parse_lines ∅ More.report_twice !! "Eqn1.eps" = Some "Euclid".
Proof.
  assert (entry_of ("  Eqn1.eps " ++ String Py.tab " Euclid  "
                      ++ String Py.tab "ignored" ++ Sample.nl)
          = Some ("Eqn1.eps", "Euclid")) as He by (vm_compute; reflexivity).
  split; [exact He|].
  apply (X17_last_line_for_a_name_wins
           ["Eqn1.eps" ++ String Py.tab "Times" ++ Sample.nl]
           ["Eqn2.eps" ++ String Py.tab "Times" ++ Sample.nl] _ _ _ He).
  intros l v' Hl. apply list_elem_of_singleton in Hl as ->.
  vm_compute. discriminate.
Defined.

(** ** Steps that cannot fail a unit *)

(** X18: closing the document and dismissing popups never raise, whatever
    the channel answers (window search raising, focus refused, keys not
    sent, enumeration failing): both return, and neither changes the counter
    or the disk, nor reports an artifact. *)
Theorem X18_close_and_dismiss_never_raise (ch : channel) (w : world) :
  (exists w',
     close_current_window ch w = (Ok tt, w')
     /\ eqn_counter w' = eqn_counter w /\ fs w' = fs w
     /\ artifacts (trace w') = artifacts (trace w))
  /\ (exists dismissed w',
        dismiss_error_popup ch w = (Ok dismissed, w')
        /\ eqn_counter w' = eqn_counter w /\ fs w' = fs w
        /\ artifacts (trace w') = artifacts (trace w)).
Proof.
  split.
  - destruct (close_current_window_returns ch w) as [[] Hok].
    destruct (keeps_close_current_window ch w) as (t & Ht & Hq & Hfs & Hc).
    destruct (close_current_window ch w) as [r w']. cbn in *. subst r.
    exists w'. destruct (quiet_trace _ Hq) as (Ha & _).
    by rewrite Ht, artifacts_app, Ha, app_nil_r.
  - destruct (dismiss_error_popup_returns ch w) as [dismissed Hok].
    destruct (keeps_dismiss_error_popup ch w) as (t & Ht & Hq & Hfs & Hc).
    destruct (dismiss_error_popup ch w) as [r w']. cbn in *. subst r.
    exists dismissed, w'. destruct (quiet_trace _ Hq) as (Ha & _).
    by rewrite Ht, artifacts_app, Ha, app_nil_r.
Qed.
